(** * DevTools frontend data source (shell/browser/ui/devtools_ui.cc)

    A shallow embedding of the request pipeline of [BundledDataSource],
    in the version of the file that has [MaybeHandleCustomRequest] and
    [StripDevToolsRevisionWithPrefix]: path canonicalisation,
    revision-marker stripping, the choice between the custom frontend and
    the bundled resources, the confined file request and the MIME
    classification ([GetMimeTypeForUrl] is the same in both versions),
    followed by the properties the design document states about them. *)

From Stdlib Require Import List Ascii Bool Arith Lia.
From Stdlib Require String.
Import ListNotations String.StringSyntax.
Open Scope string_scope.
Open Scope list_scope.

Set Implicit Arguments.

(** ** Strings

    A [std::string] is a list of characters; a literal is read through the
    coercion [text_of_string]. *)

Definition text := list ascii.

Definition text_of_string (s : String.string) : text :=
  String.list_ascii_of_string s.
Coercion text_of_string : String.string >-> text.

Fixpoint text_eqb (a b : text) : bool :=
  match a, b with
  | [], [] => true
  | x :: a', y :: b' => Ascii.eqb x y && text_eqb a' b'
  | _, _ => false
  end.

Module std.

(** [s.find(c, pos)]: the first index [>= pos] holding [c]; [None] is
    [std::string::npos], also when [pos] is past the end. *)
Fixpoint find (s : text) (c : ascii) (pos : nat) : option nat :=
  match s with
  | [] => None
  | x :: s' =>
      match pos with
      | 0 => if Ascii.eqb x c then Some 0 else option_map S (find s' c 0)
      | S pos' => option_map S (find s' c pos')
      end
  end.

(** [s.substr(pos)]: the characters from [pos] on; [None] is the
    [std::out_of_range] raised when [pos > s.size()]. *)
Definition substr (s : text) (pos : nat) : option text :=
  if pos <=? length s then Some (skipn pos s) else None.

End std.

Module base.

(** [base::ToLowerASCII] on one character: only 'A'..'Z' move. *)
Definition ToLowerASCII (c : ascii) : ascii :=
  let n := nat_of_ascii c in
  if (65 <=? n) && (n <=? 90) then ascii_of_nat (n + 32) else c.

Inductive CompareCase := SENSITIVE | INSENSITIVE_ASCII.

Definition char_equal (cc : CompareCase) (a b : ascii) : bool :=
  match cc with
  | SENSITIVE => Ascii.eqb a b
  | INSENSITIVE_ASCII => Ascii.eqb (ToLowerASCII a) (ToLowerASCII b)
  end.

(** [std::equal] over two ranges of the same length. *)
Fixpoint range_equal (cc : CompareCase) (a b : text) : bool :=
  match a, b with
  | [], [] => true
  | x :: a', y :: b' => char_equal cc x y && range_equal cc a' b'
  | _, _ => false
  end.

(** [base::StartsWith(str, search_for, case)] of
    base/strings/string_util.h: false when [search_for] is longer than
    [str], else the leading [search_for.size()] characters are compared. *)
Definition StartsWith (str search_for : text) (cc : CompareCase) : bool :=
  if length str <? length search_for then false
  else range_equal cc (firstn (length search_for) str) search_for.

(** [base::EndsWith(str, search_for, case)]: the same on the trailing
    [search_for.size()] characters. *)
Definition EndsWith (str search_for : text) (cc : CompareCase) : bool :=
  if length str <? length search_for then false
  else range_equal cc (skipn (length str - length search_for) str)
                   search_for.

(** [base::StrCat]; also used for [+=] and for the pieces of a log line. *)
Definition StrCat (pieces : list text) : text := concat pieces.

End base.
Import base.


(** ** Effects

    A request is handled by side effects only: the reply callback is run,
    a read is posted to the thread pool, a line is logged, or the process
    is terminated by a failed check.  A computation returns the events it
    produced, in order, and its value; no value means the process was
    terminated. *)

Record FilePath := { value : text }.

Inductive Severity := INFO | WARNING | ERROR.

Inductive FatalCause :=
| CheckFailed        (* CHECK(...) in every build *)
| DCheckFailed       (* DCHECK(...) where DCHECK_IS_ON *)
| OutOfRange.        (* std::out_of_range from substr *)

Inductive Event :=
| EvLog (sev : Severity) (msg : text)
| EvLookup (filename : text)              (* GetFrontendResourceBytes *)
| EvRun (bytes : option text)             (* std::move(callback).Run(bytes) *)
| EvPost (full_path : FilePath)           (* PostTaskAndReplyWithResult *)
| EvRead (path : FilePath)                (* base::ReadFileToString *)
| EvFatal (cause : FatalCause).

Definition M (A : Type) : Type := (list Event * option A)%type.

Definition ret {A} (a : A) : M A := ([], Some a).

Definition bind {A B} (m : M A) (f : A -> M B) : M B :=
  match m with
  | (t, Some a) => let (t', r) := f a in (t ++ t', r)
  | (t, None) => (t, None)
  end.

Notation "x <- m ;; k" := (bind m (fun x => k))
  (at level 61, m at next level, right associativity).
Notation "m ;;; k" := (bind m (fun _ => k))
  (at level 61, right associativity).

Definition emit (e : Event) : M unit := ([e], Some tt).

Definition fatal {A} (c : FatalCause) : M A := ([EvFatal c], None).

Definition trace {A} (m : M A) : list Event := fst m.
Definition result {A} (m : M A) : option A := snd m.

(** [LOG(sev) << msg], and [CHECK(cond)], which is compiled into every build. *)
Definition LOG (sev : Severity) (msg : text) : M unit := emit (EvLog sev msg).

Definition CHECK (cond : bool) : M unit :=
  if cond then ret tt else fatal CheckFailed.

(** [s.substr(pos)] inside the program: out of range ends the process. *)
Definition substr (s : text) (pos : nat) : M text :=
  match std.substr s pos with
  | Some r => ret r
  | None => fatal OutOfRange
  end.

(** The number of times the reply callback was run, and what a trace did
    besides. *)
Definition is_run (e : Event) : bool :=
  match e with EvRun _ => true | _ => false end.
Definition is_post (e : Event) : bool :=
  match e with EvPost _ => true | _ => false end.
Definition is_read (e : Event) : bool :=
  match e with EvRead _ => true | _ => false end.
Definition is_lookup (e : Event) : bool :=
  match e with EvLookup _ => true | _ => false end.
Definition is_fatal (e : Event) : bool :=
  match e with EvFatal _ => true | _ => false end.

Definition count (p : Event -> bool) (t : list Event) : nat :=
  length (filter p t).

Definition runs (t : list Event) : nat := count is_run t.

(** ** The host

    What the file takes from Chromium and from the process it runs in:
    the command line, [GURL], the URL constants, [base::FilePath], the
    file system and the table of bundled frontend resources.  None of it
    is defined in devtools_ui.cc, so the program is embedded over an
    arbitrary host. *)

Inductive IOError := FileMissing | PermissionDenied | IOFailure.

Class Host := {
  (* build configuration *)
  DCHECK_IS_ON : bool;
  (* base::CommandLine::ForCurrentProcess() *)
  HasSwitch : text -> bool;
  GetSwitchValueASCII : text -> text;
  (* GURL *)
  GURL : Type;
  GURL_empty : GURL;                      (* GURL() *)
  GURL_of : text -> GURL;                 (* GURL(spec) *)
  is_valid : GURL -> bool;
  SchemeIsFile : GURL -> bool;
  Resolve : GURL -> text -> GURL;
  url_path : GURL -> text;                (* GURL::path() *)
  ExtractFileName : GURL -> text;
  URLToRequestPath : GURL -> text;        (* content::URLDataSource *)
  (* URL constants *)
  kChromeDevToolsScheme : text;
  kStandardSchemeSeparator : text;
  kChromeUIDevToolsHost : text;
  kChromeUIDevToolsBundledPath : text;
  (* net::FileURLToFilePath and base::FilePath *)
  FileURLToFilePath : GURL -> option FilePath;
  AppendASCII : FilePath -> text -> FilePath;
  IsParent : FilePath -> FilePath -> bool;
  (* the file system and the bundled resources *)
  file_read : FilePath -> IOError + text;
  GetFrontendResourceBytes : text -> option text;
  (* the stack: what a reader finds in [size] bytes of a frame whose
     function has returned *)
  dead_stack : nat -> text
}.

Section Program.

Context {H : Host}.

(** [DLOG] and [DCHECK] are compiled out unless [DCHECK_IS_ON]. *)
Definition DLOG (sev : Severity) (msg : text) : M unit :=
  if DCHECK_IS_ON then LOG sev msg else ret tt.

Definition DCHECK (cond : bool) : M unit :=
  if DCHECK_IS_ON && negb cond then fatal DCheckFailed else ret tt.

(** [base::ReadFileToString]: success or not, the cause of a failure is
    not reported. *)
Definition ReadFileToString (path : FilePath) : option text :=
  match file_read path with
  | inr contents => Some contents
  | inl _ => None
  end.

Definition GetCustomDevToolsFrontendURL : GURL :=
  if HasSwitch "custom-devtools-frontend"
  then GURL_of (GetSwitchValueASCII "custom-devtools-frontend")
  else GURL_empty.

(** The initialiser of the array [kHttpNotFound]. *)
Definition kHttpNotFound : text :=
  StrCat [("HTTP/1.1 404 Not Found" : text); ["010"%char; "010"%char]].

(** [kHttpNotFound] is an array local to [CreateNotFoundResponse], and
    [RefCountedStaticMemory] keeps the pointer and the size without
    copying the bytes.  What the function returns is not null and has the
    size of the text, [strlen(kHttpNotFound)]; its bytes are no longer the
    text but those of a frame that has returned. *)
Definition CreateNotFoundResponse : option text :=
  Some (dead_stack (length kHttpNotFound)).

Definition ReadFileForDevTools (path : FilePath) : M (option text) :=
  emit (EvRead path) ;;;
  match ReadFileToString path with
  | None =>
      LOG ERROR (StrCat [("Failed to read " : text); value path]) ;;;
      ret CreateNotFoundResponse
  | Some buffer => ret (Some buffer)
  end.

Definition PathWithoutParams (path : text) : M text :=
  substr
    (url_path
       (Resolve
          (GURL_of (StrCat [kChromeDevToolsScheme; kStandardSchemeSeparator;
                            kChromeUIDevToolsHost]))
          path))
    1.

Definition GetMimeTypeForUrl (url : GURL) : text :=
  let filename := ExtractFileName url in
  if EndsWith filename ".html" INSENSITIVE_ASCII then "text/html"
  else if EndsWith filename ".css" INSENSITIVE_ASCII then "text/css"
  else if EndsWith filename ".js" INSENSITIVE_ASCII
          || EndsWith filename ".mjs" INSENSITIVE_ASCII
       then "application/javascript"
  else if EndsWith filename ".png" INSENSITIVE_ASCII then "image/png"
  else if EndsWith filename ".map" INSENSITIVE_ASCII then "application/json"
  else if EndsWith filename ".ts" INSENSITIVE_ASCII
       then "application/x-typescript"
  else if EndsWith filename ".gif" INSENSITIVE_ASCII then "image/gif"
  else if EndsWith filename ".svg" INSENSITIVE_ASCII then "image/svg+xml"
  else if EndsWith filename ".manifest" INSENSITIVE_ASCII
       then "text/cache-manifest"
  else "text/html".

Definition StripDevToolsRevisionWithPrefix (path prefix : text) : M text :=
  if StartsWith path prefix INSENSITIVE_ASCII then
    match std.find path "/"%char (length prefix + 1) with
    | Some found => substr path (found + 1)
    | None =>
        DLOG ERROR "Unexpected URL format, falling back to the original URL." ;;;
        ret path
    end
  else ret path.

(** *** BundledDataSource *)

Definition StartBundledDataRequest (path : text) : M unit :=
  filename <- PathWithoutParams path ;;
  emit (EvLookup filename) ;;;
  let bytes := GetFrontendResourceBytes filename in
  (match bytes with
   | None =>
       DLOG WARNING
         (StrCat [("Unable to find dev tool resource: " : text); filename;
                  (". If you compiled with debug_devtools=1, try running with " : text);
                  ("--debug-devtools." : text)])
   | Some _ => ret tt
   end) ;;;
  emit (EvRun bytes).

Definition StartFileRequest (path : text) : M unit :=
  let custom_devtools_frontend := GetCustomDevToolsFrontendURL in
  DCHECK (SchemeIsFile custom_devtools_frontend) ;;;
  match FileURLToFilePath custom_devtools_frontend with
  | None =>
      emit (EvRun CreateNotFoundResponse) ;;;
      LOG WARNING (StrCat [("Unable to find DevTools resource: " : text); path])
  | Some base_path =>
      let full_path := AppendASCII base_path path in
      DLOG INFO (StrCat [("StartFileRequest: " : text); value full_path]) ;;;
      CHECK (IsParent base_path full_path) ;;;
      emit (EvPost full_path)
  end.

(** Lines 130-135 of [MaybeHandleCustomRequest]: the three marker passes. *)
Definition StripRevisionMarkers (path : text) : M text :=
  stripped_path <- StripDevToolsRevisionWithPrefix path "serve_rev/" ;;
  stripped_path <- StripDevToolsRevisionWithPrefix stripped_path "serve_file/" ;;
  StripDevToolsRevisionWithPrefix stripped_path "serve_internal_file/".

(** The value is the [bool] the method returns; the callback it was given
    has been run or bound to a posted read exactly when the trace says so. *)
Definition MaybeHandleCustomRequest (path : text) : M bool :=
  let custom_devtools_frontend := GetCustomDevToolsFrontendURL in
  if negb (is_valid custom_devtools_frontend) then ret false
  else
    stripped_path <- StripRevisionMarkers path ;;
    if SchemeIsFile custom_devtools_frontend then
      (* Fetch from file system but strip all the params. *)
      file_path <- PathWithoutParams stripped_path ;;
      StartFileRequest file_path ;;;
      ret true
    else
      (* the remote request is commented out in the source *)
      ret true.

Definition StartDataRequest (url : GURL) : M unit :=
  let path := URLToRequestPath url in
  let bundled_path_prefix := StrCat [kChromeUIDevToolsBundledPath; ("/" : text)] in
  if StartsWith path bundled_path_prefix INSENSITIVE_ASCII then
    path_without_params <- PathWithoutParams path ;;
    DCHECK (StartsWith path_without_params bundled_path_prefix
                       INSENSITIVE_ASCII) ;;;
    path_under_bundled <-
      substr path_without_params (length bundled_path_prefix) ;;
    handled <- MaybeHandleCustomRequest path_under_bundled ;;
    if negb handled then
      (* Fetch from packaged resources. *)
      StartBundledDataRequest path_under_bundled
    else ret tt
  else
    (* We do not handle remote and custom requests. *)
    emit (EvRun None).

Definition GetMimeType (url : GURL) : text := GetMimeTypeForUrl url.

(** *** The thread pool

    [PostTaskAndReplyWithResult] runs [ReadFileForDevTools] on a worker and
    hands what it returns to the bound callback.  Every posted task is
    taken to run (the process is not shutting down). *)

Definition run_posted (e : Event) : M unit :=
  match e with
  | EvPost full_path =>
      bytes <- ReadFileForDevTools full_path ;;
      emit (EvRun bytes)
  | _ => ret tt
  end.

Fixpoint ThreadPool (posted : list Event) : M unit :=
  match posted with
  | [] => ret tt
  | e :: rest => run_posted e ;;; ThreadPool rest
  end.

(** One request from the call of [StartDataRequest] to the last reply. *)
Definition handle (url : GURL) : M unit :=
  match StartDataRequest url with
  | (t, Some _) => let (t', r) := ThreadPool t in (t ++ t', r)
  | (t, None) => (t, None)
  end.

End Program.

(** ** A model of the host

    The URL library, [base::FilePath] and the file system are not part of
    the sources.  This module gives one concrete host: it is what the
    properties of URL resolution are stated on, and what the general
    theorems are instantiated with. *)

Module Model.

Fixpoint split (c : ascii) (s : text) : list text :=
  match s with
  | [] => [[]]
  | x :: s' =>
      if Ascii.eqb x c then [] :: split c s'
      else match split c s' with
           | h :: t => (x :: h) :: t
           | [] => [[x]]
           end
  end.

Fixpoint join (c : ascii) (l : list text) : text :=
  match l with
  | [] => []
  | a :: l' =>
      match l' with
      | [] => a
      | _ :: _ => a ++ c :: join c l'
      end
  end.

(** The characters before the first [c], and the ones after it. *)
Fixpoint before (c : ascii) (s : text) : text :=
  match s with
  | [] => []
  | x :: s' => if Ascii.eqb x c then [] else x :: before c s'
  end.

Fixpoint after (c : ascii) (s : text) : option text :=
  match s with
  | [] => None
  | x :: s' => if Ascii.eqb x c then Some s' else after c s'
  end.

Record Url := {
  u_valid : bool;
  u_scheme : text;
  u_host : text;
  u_path : text;
  u_query : option text
}.

Definition invalid_url : Url :=
  {| u_valid := false; u_scheme := []; u_host := []; u_path := [];
     u_query := None |}.

Definition is_dot (s : text) : bool := text_eqb s ".".
Definition is_dotdot (s : text) : bool := text_eqb s "..".

(** Modelled from the spec: the dot-segment removal of GURL's path
    canonicaliser, which is not in the sources ("[.]/[..] segments are
    collapsed using standard URL-path-resolution semantics").  [stack]
    holds the segments kept so far, last one first; [..] drops the last
    kept segment and cannot climb above the root; a final [.] or [..]
    leaves a trailing separator. *)
Fixpoint collapse (stack segs : list text) : list text :=
  match segs with
  | [] => rev stack
  | s :: rest =>
      match rest with
      | [] =>
          if is_dot s then rev ([] :: stack)
          else if is_dotdot s then rev ([] :: tl stack)
          else rev (s :: stack)
      | _ :: _ =>
          if is_dot s then collapse stack rest
          else if is_dotdot s then collapse (tl stack) rest
          else collapse (s :: stack) rest
      end
  end.

Definition remove_dot_segments (path : text) : text :=
  "/"%char :: join "/" (collapse [] (tl (split "/" path))).

(** The directory part of a path: up to and including its last separator. *)
Definition directory (path : text) : text :=
  rev (match after "/" (rev path) with
       | Some d => "/"%char :: d
       | None => ["/"%char]
       end).

(** Modelled from the spec: [GURL(spec)], not in the sources; a URL is
    [scheme://host/path?query#fragment], valid when the scheme is not
    empty and followed by [://]; an empty path is the root. *)
Definition parse (spec : text) : Url :=
  let scheme := before ":" spec in
  match after ":" spec with
  | Some ("/"%char :: "/"%char :: rest) =>
      let no_fragment := before "#" rest in
      let hier := before "?" no_fragment in
      {| u_valid := negb (text_eqb scheme []);
         u_scheme := map ToLowerASCII scheme;
         u_host := before "/" hier;
         u_path := match after "/" hier with
                   | Some p => remove_dot_segments ("/"%char :: p)
                   | None => ["/"%char]
                   end;
         u_query := after "?" no_fragment |}
  | _ => invalid_url
  end.

(** Modelled from the spec: [GURL::Resolve], not in the sources ("parse
    the raw path as a URL relative to a synthetic base URL ...; take the
    resulting path component").  The fragment and the query of the
    reference are cut off, a reference that does not start with a
    separator is merged with the directory of the base path, and the dot
    segments are removed. *)
Definition resolve (base : Url) (relative : text) : Url :=
  if u_valid base then
    let no_fragment := before "#" relative in
    let ref_path := before "?" no_fragment in
    let merged :=
      match ref_path with
      | "/"%char :: _ => ref_path
      | _ => directory (u_path base) ++ ref_path
      end in
    {| u_valid := true;
       u_scheme := u_scheme base;
       u_host := u_host base;
       u_path := remove_dot_segments merged;
       u_query := after "?" no_fragment |}
  else invalid_url.

(** Modelled from the spec: [GURL::ExtractFileName], the final segment of
    the path. *)
Definition extract_file_name (u : Url) : text :=
  last (split "/" (u_path u)) [].

(** Modelled from the spec: [content::URLDataSource::URLToRequestPath],
    what follows the separator that starts the path, query included. *)
Definition url_to_request_path (u : Url) : text :=
  tl (u_path u) ++
  match u_query u with
  | Some q => "?"%char :: q
  | None => []
  end.

(** [base::FilePath] compares components one by one and does not resolve
    them; [components] keeps the root and drops empty components. *)
Definition components (p : FilePath) : list text :=
  match value p with
  | "/"%char :: _ => [["/"%char]]
  | _ => []
  end ++ filter (fun s => negb (text_eqb s [])) (split "/" (value p)).

Fixpoint is_prefix (a b : list text) : bool :=
  match a, b with
  | [], _ => true
  | x :: a', y :: b' => text_eqb x y && is_prefix a' b'
  | _ :: _, [] => false
  end.

Definition is_parent (parent child : FilePath) : bool :=
  match components parent with
  | [] => false
  | pc => (length pc <? length (components child))
          && is_prefix pc (components child)
  end.

Definition append_ascii (p : FilePath) (component : text) : FilePath :=
  match component with
  | [] => p
  | _ =>
      match rev (value p) with
      | "/"%char :: _ => {| value := value p ++ component |}
      | _ => {| value := value p ++ "/"%char :: component |}
      end
  end.

Fixpoint assoc {A} (k : text) (l : list (text * A)) : option A :=
  match l with
  | [] => None
  | (k', v) :: l' => if text_eqb k k' then Some v else assoc k l'
  end.

(** The host of a process started with [--custom-devtools-frontend=switch]
    (or without the switch), over the given files and bundled resources;
    a frame that has returned has been cleared. *)
Definition host (debug : bool) (switch : option text)
    (files : list (text * (IOError + text)))
    (bundle : list (text * text)) : Host :=
  {| DCHECK_IS_ON := debug;
     HasSwitch := fun name =>
       match switch with
       | Some _ => text_eqb name "custom-devtools-frontend"
       | None => false
       end;
     GetSwitchValueASCII := fun name =>
       match switch with
       | Some v => if text_eqb name "custom-devtools-frontend" then v else []
       | None => []
       end;
     GURL := Url;
     GURL_empty := invalid_url;
     GURL_of := parse;
     is_valid := u_valid;
     SchemeIsFile := fun u => text_eqb (u_scheme u) "file";
     Resolve := resolve;
     url_path := u_path;
     ExtractFileName := extract_file_name;
     URLToRequestPath := url_to_request_path;
     kChromeDevToolsScheme := "devtools";
     kStandardSchemeSeparator := "://";
     kChromeUIDevToolsHost := "devtools";
     kChromeUIDevToolsBundledPath := "bundled";
     FileURLToFilePath := fun u =>
       if u_valid u && text_eqb (u_scheme u) "file"
       then Some {| value := u_path u |} else None;
     AppendASCII := append_ascii;
     IsParent := is_parent;
     file_read := fun p =>
       match assoc (value p) files with
       | Some r => r
       | None => inl FileMissing
       end;
     GetFrontendResourceBytes := fun name => assoc name bundle;
     dead_stack := fun size => repeat "000"%char size |}.

End Model.

Definition demo_files : list (text * (IOError + text)) :=
  [ ("/opt/frontend/inspector.html" : text, inr ("<html></html>" : text));
    ("/opt/frontend/locked.js" : text, inl PermissionDenied) ].

Definition demo_bundle : list (text * text) :=
  [ ("inspector.js" : text, "void 0;" : text) ].

(** ** The vocabulary of the design document *)

(** The extension of a file name: from its last dot to its end, the dot
    included; empty when the name has no dot. *)
Fixpoint extension (filename : text) : text :=
  match filename with
  | [] => []
  | c :: rest =>
      match extension rest with
      | [] => if Ascii.eqb c "." then c :: rest else []
      | e => e
      end
  end.

(** The table of section 4.5, keyed by the extension in lower case. *)
Definition mime_table : list (text * text) :=
  [ (".html" : text, "text/html" : text);
    (".css" : text, "text/css" : text);
    (".js" : text, "application/javascript" : text);
    (".mjs" : text, "application/javascript" : text);
    (".png" : text, "image/png" : text);
    (".map" : text, "application/json" : text);
    (".ts" : text, "application/x-typescript" : text);
    (".gif" : text, "image/gif" : text);
    (".svg" : text, "image/svg+xml" : text);
    (".manifest" : text, "text/cache-manifest" : text) ].

Definition classify (lower_case_extension : text) : text :=
  match Model.assoc lower_case_extension mime_table with
  | Some mime => mime
  | None => "text/html"
  end.

Definition revision_markers : list text :=
  [ ("serve_rev/" : text); ("serve_file/" : text);
    ("serve_internal_file/" : text) ].

(** The stripping pass as section 4.1 words it: the remainder after the
    next separator that follows the marker token. *)
Definition strip_as_documented (path prefix : text) : text :=
  if StartsWith path prefix INSENSITIVE_ASCII then
    match std.find path "/"%char (length prefix) with
    | Some found => skipn (found + 1) path
    | None => path
    end
  else path.

(** Two paths that differ at most in the ASCII case of their first [n]
    characters. *)
Definition same_up_to_case_in (n : nat) (p q : text) : Prop :=
  map ToLowerASCII (firstn n p) = map ToLowerASCII (firstn n q)
  /\ skipn n p = skipn n q.

(** Walking the segments of a relative path from the virtual root without
    ever stepping above it; [depth] is the number of directories entered. *)
Fixpoint stays_under_root (depth : nat) (segments : list text) : bool :=
  match segments with
  | [] => true
  | s :: rest =>
      if Model.is_dotdot s then
        match depth with
        | 0 => false
        | S d => stays_under_root d rest
        end
      else if Model.is_dot s || text_eqb s [] then stays_under_root depth rest
      else stays_under_root (S depth) rest
  end.

(** A suffix the classifier tests for: a dot, then lower-case characters
    other than a dot. *)
Definition dotted_suffix (suffix : text) : bool :=
  match suffix with
  | c :: body =>
      Ascii.eqb c "."
      && forallb (fun x => negb (Ascii.eqb x ".")) body
      && text_eqb (map ToLowerASCII body) body
  | [] => false
  end.

(** A reply is owed to a request once: either the callback is run on the
    calling thread, or it is bound to a read posted to the pool, which
    runs it when the read is over.  An event that is only a
    diagnostic is neither. *)

Definition diagnostic (e : Event) : bool :=
  match e with
  | EvLog _ _ | EvFatal _ => true
  | _ => false
  end.

Definition quiet (t : list Event) : Prop := forallb diagnostic t = true.

Definition replies (t : list Event) : nat := runs t + count is_post t.

(** What a trace did, diagnostics left out. *)
Definition effects (t : list Event) : list Event :=
  filter (fun e => negb (diagnostic e)) t.

(** The same host, built with or without DCHECKs. *)
Definition with_dchecks (on : bool) (H : Host) : Host :=
  {| DCHECK_IS_ON := on;
     HasSwitch := @HasSwitch H;
     GetSwitchValueASCII := @GetSwitchValueASCII H;
     GURL := @GURL H;
     GURL_empty := @GURL_empty H;
     GURL_of := @GURL_of H;
     is_valid := @is_valid H;
     SchemeIsFile := @SchemeIsFile H;
     Resolve := @Resolve H;
     url_path := @url_path H;
     ExtractFileName := @ExtractFileName H;
     URLToRequestPath := @URLToRequestPath H;
     kChromeDevToolsScheme := @kChromeDevToolsScheme H;
     kStandardSchemeSeparator := @kStandardSchemeSeparator H;
     kChromeUIDevToolsHost := @kChromeUIDevToolsHost H;
     kChromeUIDevToolsBundledPath := @kChromeUIDevToolsBundledPath H;
     FileURLToFilePath := @FileURLToFilePath H;
     AppendASCII := @AppendASCII H;
     IsParent := @IsParent H;
     file_read := @file_read H;
     GetFrontendResourceBytes := @GetFrontendResourceBytes H;
     dead_stack := @dead_stack H |}.

(** The same host, on which [net::FileURLToFilePath] fails for every URL. *)
Definition without_file_paths (H : Host) : Host :=
  {| DCHECK_IS_ON := @DCHECK_IS_ON H;
     HasSwitch := @HasSwitch H;
     GetSwitchValueASCII := @GetSwitchValueASCII H;
     GURL := @GURL H;
     GURL_empty := @GURL_empty H;
     GURL_of := @GURL_of H;
     is_valid := @is_valid H;
     SchemeIsFile := @SchemeIsFile H;
     Resolve := @Resolve H;
     url_path := @url_path H;
     ExtractFileName := @ExtractFileName H;
     URLToRequestPath := @URLToRequestPath H;
     kChromeDevToolsScheme := @kChromeDevToolsScheme H;
     kStandardSchemeSeparator := @kStandardSchemeSeparator H;
     kChromeUIDevToolsHost := @kChromeUIDevToolsHost H;
     kChromeUIDevToolsBundledPath := @kChromeUIDevToolsBundledPath H;
     FileURLToFilePath := fun _ => None;
     AppendASCII := @AppendASCII H;
     IsParent := @IsParent H;
     file_read := @file_read H;
     GetFrontendResourceBytes := @GetFrontendResourceBytes H;
     dead_stack := @dead_stack H |}.

(** A debug computation and the release computation of the same code
    agree when, if the debug one returns, the release one returns the same
    value after the same effects. *)
Definition agree {A} (debug release : M A) : Prop :=
  result debug <> None ->
  result release = result debug
  /\ effects (trace release) = effects (trace debug).

(** Lines 162-165 of [StartDataRequest]: the custom frontend first, the
    bundled resources when it does not handle the request. *)
Definition selection {H : Host} (path_under_bundled : text) : M unit :=
  handled <- MaybeHandleCustomRequest path_under_bundled ;;
  if negb handled then StartBundledDataRequest path_under_bundled
  else ret tt.

(** The hosts the examples run on: a local frontend directory, a remote
    frontend, and no custom frontend. *)
Definition local_host (debug : bool) : Host :=
  Model.host debug (Some ("file:///opt/frontend" : text)) demo_files demo_bundle.

Definition remote_host : Host :=
  Model.host false (Some ("https://example.org/frontend/" : text))
             demo_files demo_bundle.

Definition plain_host : Host := Model.host false None demo_files demo_bundle.

Definition request (path : text) : Model.Url :=
  Model.parse (StrCat [("devtools://devtools/" : text); path]).

(** * Properties *)

(** ** Characters and strings *)

Lemma ToLowerASCII_dot (c : ascii) : ToLowerASCII c = "."%char <-> c = "."%char.
Proof.
  destruct c as [[] [] [] [] [] [] [] []]; vm_compute; split; congruence.
Qed.

Lemma ToLowerASCII_idem (c : ascii) :
  ToLowerASCII (ToLowerASCII c) = ToLowerASCII c.
Proof.
  destruct c as [[] [] [] [] [] [] [] []]; vm_compute; reflexivity.
Qed.

Lemma range_equal_ci (a b : text) :
  range_equal INSENSITIVE_ASCII a b = true
  <-> map ToLowerASCII a = map ToLowerASCII b.
Proof.
  revert b; induction a as [|x a IH]; intros [|y b]; simpl;
    try (split; congruence).
  rewrite andb_true_iff, Ascii.eqb_eq, IH.
  split; [intros [-> ->]; reflexivity | intros E; inversion E; auto].
Qed.

Lemma StartsWith_ci (s p : text) :
  StartsWith s p INSENSITIVE_ASCII = true
  <-> map ToLowerASCII (firstn (length p) s) = map ToLowerASCII p.
Proof.
  unfold StartsWith. destruct (Nat.ltb_spec (length s) (length p)) as [L|L].
  - split; [discriminate|]. intros E.
    apply (f_equal (@length ascii)) in E.
    rewrite !length_map, length_firstn in E. lia.
  - apply range_equal_ci.
Qed.

Lemma EndsWith_ci (s p : text) :
  EndsWith s p INSENSITIVE_ASCII = true
  <-> exists front back,
      s = front ++ back /\ map ToLowerASCII back = map ToLowerASCII p.
Proof.
  unfold EndsWith. destruct (Nat.ltb_spec (length s) (length p)) as [L|L].
  - split; [discriminate|]. intros (f & b & -> & E).
    apply (f_equal (@length ascii)) in E.
    rewrite !length_map in E. rewrite length_app in L. lia.
  - rewrite range_equal_ci. split.
    + intros E. exists (firstn (length s - length p) s),
        (skipn (length s - length p) s).
      now rewrite firstn_skipn.
    + intros (f & b & -> & E).
      assert (length b = length p) as Lb
          by (apply (f_equal (@length ascii)) in E;
              now rewrite !length_map in E).
      rewrite length_app, Lb.
      replace (length f + length p - length p) with (length f + 0) by lia.
      now rewrite skipn_app, Nat.add_0_r, skipn_all, Nat.sub_diag.
Qed.

Lemma text_eqb_eq (a b : text) : text_eqb a b = true <-> a = b.
Proof.
  revert b. induction a as [|x a IH]; intros [|y b]; simpl;
    try (split; congruence).
  rewrite andb_true_iff, Ascii.eqb_eq, IH.
  split; [intros [-> ->]; reflexivity | intros E; inversion E; auto].
Qed.

Lemma text_eqb_refl (a : text) : text_eqb a a = true.
Proof. now apply text_eqb_eq. Qed.

(** ** The extension of a file name *)

Lemma extension_no_dot (f : text) : ~ In "."%char f -> extension f = [].
Proof.
  induction f as [|c f IH]; simpl; [reflexivity|]. intros N.
  rewrite IH by tauto.
  destruct (Ascii.eqb_spec c "."); [exfalso; auto | reflexivity].
Qed.

Lemma extension_app (front e : text) :
  ~ In "."%char e -> extension (front ++ "."%char :: e) = "."%char :: e.
Proof.
  intros N. induction front as [|c front IH]; simpl.
  - now rewrite extension_no_dot.
  - now rewrite IH.
Qed.

Lemma extension_inv (f : text) :
  (extension f = [] /\ ~ In "."%char f)
  \/ exists front e,
     f = front ++ "."%char :: e /\ ~ In "."%char e
     /\ extension f = "."%char :: e.
Proof.
  induction f as [|c f [[E N]|(front & e & -> & N & E)]]; simpl.
  - left; tauto.
  - rewrite E. destruct (Ascii.eqb_spec c ".") as [->|D].
    + right. exists [], f. auto.
    + left. split; [reflexivity | intros [?|?]; auto].
  - right. rewrite E. exists (c :: front), e. auto.
Qed.

Lemma extension_lower (f : text) :
  map ToLowerASCII (extension f) = extension (map ToLowerASCII f).
Proof.
  destruct (extension_inv f) as [[E N]|(front & e & -> & N & E)].
  - rewrite E, extension_no_dot; [reflexivity|].
    rewrite in_map_iff. intros (c & L & I).
    apply (proj1 (ToLowerASCII_dot c)) in L. subst c. contradiction.
  - rewrite E, map_app. simpl. rewrite extension_app; [reflexivity|].
    rewrite in_map_iff. intros (c & L & I).
    apply (proj1 (ToLowerASCII_dot c)) in L. subst c. contradiction.
Qed.


Lemma EndsWith_extension (f suffix : text) :
  dotted_suffix suffix = true ->
  EndsWith f suffix INSENSITIVE_ASCII
  = text_eqb (map ToLowerASCII (extension f)) suffix.
Proof.
  destruct suffix as [|d body]; [discriminate|]. simpl.
  rewrite !andb_true_iff, Ascii.eqb_eq, forallb_forall, text_eqb_eq.
  intros [[-> ND] LB].
  assert (~ In "."%char body) as NB.
  { intros I. apply ND in I. now rewrite Ascii.eqb_refl in I. }
  apply eq_true_iff_eq. rewrite EndsWith_ci, text_eqb_eq. simpl. rewrite LB.
  split.
  - intros (front & back & -> & E).
    destruct back as [|c back]; [discriminate|]. simpl in E.
    injection E as Ec Eb. apply (proj1 (ToLowerASCII_dot c)) in Ec. subst c.
    rewrite extension_app; [simpl; now rewrite Eb|].
    intros I. apply NB. rewrite <- Eb.
    change "."%char with (ToLowerASCII "."). now apply in_map.
  - intros E.
    destruct (extension_inv f) as [[E0 _]|(front & e & -> & _ & E1)].
    + rewrite E0 in E. discriminate.
    + exists front, ("."%char :: e). rewrite E1 in E. auto.
Qed.

Section Classifier.

Context {H : Host}.

(** C6.  The MIME type is a function of the extension of the file name of
    the URL alone, read without regard to ASCII case: it is the entry of
    the table of section 4.5 for the extension in lower case, and
    [text/html] when the table has none (also when there is no extension);
    lowering the case of the whole file name first gives the same type. *)
Theorem GetMimeTypeForUrl_classifies (url : GURL) :
  GetMimeTypeForUrl url
  = classify (map ToLowerASCII (extension (ExtractFileName url)))
  /\ GetMimeTypeForUrl url
     = classify (extension (map ToLowerASCII (ExtractFileName url))).
Proof.
  rewrite <- extension_lower. split; [|idtac];
    unfold GetMimeTypeForUrl, classify, mime_table;
    rewrite !EndsWith_extension by reflexivity;
    cbn [Model.assoc];
    repeat match goal with
           | |- context [text_eqb ?a ?b] =>
               destruct (text_eqb a b); try reflexivity
           end.
Qed.

End Classifier.

(** ** [std::string::find] and [substr] *)

Lemma find_lt (s : text) (c : ascii) (pos i : nat) :
  std.find s c pos = Some i -> i < length s.
Proof.
  revert pos i. induction s as [|x s IH]; simpl; [discriminate|].
  intros [|pos] i.
  - destruct (Ascii.eqb x c); [intros [= <-]; lia|].
    destruct (std.find s c 0) eqn:F; simpl; [intros [= <-]|discriminate].
    apply IH in F. lia.
  - destruct (std.find s c pos) eqn:F; simpl; [intros [= <-]|discriminate].
    apply IH in F. lia.
Qed.

Lemma find_first (b rest : text) (c : ascii) :
  ~ In c b -> std.find (b ++ c :: rest) c 0 = Some (length b).
Proof.
  induction b as [|x b IH]; simpl; intros N.
  - now rewrite Ascii.eqb_refl.
  - destruct (Ascii.eqb_spec x c) as [->|_]; [exfalso; auto|].
    rewrite IH by tauto. reflexivity.
Qed.

Lemma find_absent (s : text) (c : ascii) :
  ~ In c s -> std.find s c 0 = None.
Proof.
  induction s as [|x s IH]; simpl; intros N; [reflexivity|].
  destruct (Ascii.eqb_spec x c) as [->|_]; [exfalso; auto|].
  rewrite IH by tauto. reflexivity.
Qed.

Lemma find_skipn (s : text) (c : ascii) (pos : nat) :
  std.find s c pos = option_map (Nat.add pos) (std.find (skipn pos s) c 0).
Proof.
  revert s. induction pos as [|pos IH]; intros s.
  - simpl. now destruct (std.find s c 0).
  - destruct s as [|x s]; [reflexivity|].
    cbn [std.find skipn]. rewrite IH.
    now destruct (std.find (skipn pos s) c 0).
Qed.

Lemma skipn_app_length (a b : text) : skipn (length a) (a ++ b) = b.
Proof.
  rewrite skipn_app, skipn_all, Nat.sub_diag. reflexivity.
Qed.

Lemma firstn_app_length (a b : text) : firstn (length a) (a ++ b) = a.
Proof.
  rewrite firstn_app, firstn_all, Nat.sub_diag. simpl. apply app_nil_r.
Qed.

Lemma same_up_to_case_length (n : nat) (p q : text) :
  same_up_to_case_in n p q -> length p = length q.
Proof.
  intros [A B].
  rewrite <- (firstn_skipn n p), <- (firstn_skipn n q), !length_app, B.
  apply (f_equal (@length ascii)) in A. rewrite !length_map in A. lia.
Qed.

Lemma same_up_to_case_skipn (n k : nat) (p q : text) :
  same_up_to_case_in n p q -> n <= k -> skipn k p = skipn k q.
Proof.
  intros [_ B] L. replace k with ((k - n) + n) by lia.
  now rewrite <- !skipn_skipn, B.
Qed.

Lemma same_up_to_case_StartsWith (prefix p q : text) :
  same_up_to_case_in (length prefix) p q ->
  StartsWith p prefix INSENSITIVE_ASCII = StartsWith q prefix INSENSITIVE_ASCII.
Proof.
  intros [A _]. apply eq_true_iff_eq. now rewrite !StartsWith_ci, A.
Qed.

(** ** Computations *)

Lemma trace_bind {A B} (m : M A) (f : A -> M B) :
  trace (bind m f)
  = trace m ++ match result m with
               | Some a => trace (f a)
               | None => []
               end.
Proof.
  destruct m as [t [a|]]; simpl; [|now rewrite app_nil_r].
  now destruct (f a).
Qed.

Lemma result_bind {A B} (m : M A) (f : A -> M B) :
  result (bind m f)
  = match result m with
    | Some a => result (f a)
    | None => None
    end.
Proof.
  destruct m as [t [a|]]; simpl; [|reflexivity]. now destruct (f a).
Qed.

Lemma count_app (p : Event -> bool) (t t' : list Event) :
  count p (t ++ t') = count p t + count p t'.
Proof. unfold count. now rewrite filter_app, length_app. Qed.

(** ** Revision markers *)

Section Markers.

Context {H : Host}.

Lemma substr_in_range (s : text) (pos : nat) :
  pos <= length s -> substr s pos = ([], Some (skipn pos s)).
Proof.
  intros L. unfold substr, std.substr.
  destruct (Nat.leb_spec pos (length s)); [reflexivity | lia].
Qed.

(** The pass never leaves the string: [substr] is always in range. *)
Lemma Strip_returns (path prefix : text) :
  exists stripped,
    result (StripDevToolsRevisionWithPrefix path prefix) = Some stripped.
Proof.
  unfold StripDevToolsRevisionWithPrefix.
  destruct (StartsWith path prefix INSENSITIVE_ASCII); [|now exists path].
  destruct (std.find _ _ _) eqn:F.
  - apply find_lt in F. rewrite substr_in_range by lia. now eexists.
  - exists path. unfold DLOG. now destruct DCHECK_IS_ON.
Qed.

Lemma Strip_no_marker (path prefix : text) :
  StartsWith path prefix INSENSITIVE_ASCII = false ->
  StripDevToolsRevisionWithPrefix path prefix = ([], Some path).
Proof.
  intros E. unfold StripDevToolsRevisionWithPrefix. now rewrite E.
Qed.

Lemma StartsWith_app (m rest prefix : text) :
  map ToLowerASCII m = map ToLowerASCII prefix ->
  StartsWith (m ++ rest) prefix INSENSITIVE_ASCII = true.
Proof.
  intros E. apply StartsWith_ci.
  assert (length prefix = length m) as ->
      by (apply (f_equal (@length ascii)) in E; now rewrite !length_map in E).
  now rewrite firstn_app_length.
Qed.

Lemma Strip_revision (m revision rest prefix : text) (c : ascii) :
  map ToLowerASCII m = map ToLowerASCII prefix ->
  ~ In "/"%char revision ->
  StripDevToolsRevisionWithPrefix (m ++ c :: revision ++ "/"%char :: rest)
                                  prefix
  = ([], Some rest).
Proof.
  intros E N. unfold StripDevToolsRevisionWithPrefix.
  rewrite StartsWith_app by assumption.
  assert (length prefix = length m) as ->
      by (apply (f_equal (@length ascii)) in E; now rewrite !length_map in E).
  rewrite find_skipn.
  replace (length m + 1) with (1 + length m) by lia.
  rewrite <- skipn_skipn, skipn_app_length. cbn [skipn].
  rewrite find_first by assumption. cbn [option_map].
  rewrite substr_in_range by (rewrite !length_app; simpl; rewrite length_app; simpl; lia).
  do 2 f_equal.
  replace (1 + length m + length revision + 1)
    with ((1 + (length revision + 1)) + length m) by lia.
  rewrite <- skipn_skipn, skipn_app_length. cbn [skipn Nat.add].
  replace (length revision + 1) with (1 + length revision) by lia.
  rewrite <- skipn_skipn, skipn_app_length. reflexivity.
Qed.

Lemma Strip_no_separator (m tail prefix : text) :
  map ToLowerASCII m = map ToLowerASCII prefix ->
  ~ In "/"%char (skipn 1 tail) ->
  result (StripDevToolsRevisionWithPrefix (m ++ tail) prefix)
  = Some (m ++ tail).
Proof.
  intros E N. unfold StripDevToolsRevisionWithPrefix.
  rewrite StartsWith_app by assumption.
  assert (length prefix = length m) as ->
      by (apply (f_equal (@length ascii)) in E; now rewrite !length_map in E).
  rewrite find_skipn.
  replace (length m + 1) with (1 + length m) by lia.
  rewrite <- skipn_skipn, skipn_app_length.
  rewrite find_absent by assumption. cbn [option_map].
  unfold DLOG. now destruct DCHECK_IS_ON.
Qed.

End Markers.

Section MarkerClaims.

Context {H : Host}.

(** C7, amended.  On a path that begins with a marker (matched without
    regard to ASCII case; in particular one of [serve_rev/], [serve_file/]
    and [serve_internal_file/]), the pass skips the marker and one more
    character, whatever it is, finds the next separator from there and
    returns the remainder after it; when there is no separator from there
    on, the path is returned unchanged. *)
Theorem Strip_skips_marker_and_revision (prefix m : text) :
  map ToLowerASCII m = map ToLowerASCII prefix ->
  (forall (c : ascii) (revision rest : text),
      ~ In "/"%char revision ->
      result (StripDevToolsRevisionWithPrefix
                (m ++ c :: revision ++ "/"%char :: rest) prefix)
      = Some rest)
  /\ (forall tail : text,
         ~ In "/"%char (skipn 1 tail) ->
         result (StripDevToolsRevisionWithPrefix (m ++ tail) prefix)
         = Some (m ++ tail)).
Proof.
  intros E. split.
  - intros c revision rest N. now rewrite Strip_revision.
  - intros tail N. now apply Strip_no_separator.
Qed.

Lemma StripRevisionMarkers_returns (path : text) :
  exists stripped, result (StripRevisionMarkers path) = Some stripped.
Proof.
  unfold StripRevisionMarkers.
  destruct (Strip_returns path "serve_rev/") as (a & A).
  destruct (Strip_returns a "serve_file/") as (b & B).
  destruct (Strip_returns b "serve_internal_file/") as (c & C).
  exists c. rewrite result_bind, A. cbn iota.
  now rewrite result_bind, B.
Qed.

(** C9.  The three marker passes of [MaybeHandleCustomRequest] always
    return a path, and when that path begins with none of the markers,
    running the passes on it again returns it unchanged. *)
Theorem StripRevisionMarkers_idempotent (path : text) :
  exists once,
    result (StripRevisionMarkers path) = Some once
    /\ ((forall marker, In marker revision_markers ->
                        StartsWith once marker INSENSITIVE_ASCII = false) ->
        result (StripRevisionMarkers once) = Some once).
Proof.
  destruct (StripRevisionMarkers_returns path) as (once & E).
  exists once. split; [assumption|]. intros N.
  unfold StripRevisionMarkers.
  rewrite (Strip_no_marker once "serve_rev/") by (apply N; simpl; auto).
  cbn [bind ret]. rewrite (Strip_no_marker once "serve_file/")
    by (apply N; simpl; auto).
  cbn [bind ret app].
  now rewrite Strip_no_marker by (apply N; simpl; auto).
Qed.

Lemma Strip_same_up_to_case (prefix path path' : text) :
  same_up_to_case_in (length prefix) path path' ->
  StripDevToolsRevisionWithPrefix path prefix
  = StripDevToolsRevisionWithPrefix path' prefix
  \/ (result (StripDevToolsRevisionWithPrefix path prefix) = Some path
      /\ result (StripDevToolsRevisionWithPrefix path' prefix) = Some path').
Proof.
  intros S. unfold StripDevToolsRevisionWithPrefix.
  rewrite <- (same_up_to_case_StartsWith _ S).
  destruct (StartsWith path prefix INSENSITIVE_ASCII); [|right; auto].
  rewrite (find_skipn path), (find_skipn path').
  rewrite <- (same_up_to_case_skipn S (k := length prefix + 1)) by lia.
  destruct (std.find (skipn _ path) _ 0) as [k|]; cbn [option_map].
  - left. unfold substr, std.substr.
    rewrite <- (same_up_to_case_length S).
    now rewrite (same_up_to_case_skipn S (k := length prefix + 1 + k + 1))
      by lia.
  - right. unfold DLOG. now destruct DCHECK_IS_ON.
Qed.

Lemma same_up_to_case_tail (n : nat) (x y : ascii) (a b : text) :
  same_up_to_case_in (S n) (x :: a) (y :: b) -> same_up_to_case_in n a b.
Proof.
  intros [A B]. simpl in A, B. injection A as _ A. now split.
Qed.

Lemma StartDataRequest_same_up_to_case (url url' : GURL) :
  let base := GURL_of (StrCat [kChromeDevToolsScheme; kStandardSchemeSeparator;
                               kChromeUIDevToolsHost]) in
  let n := length (StrCat [kChromeUIDevToolsBundledPath; ("/" : text)]) in
  same_up_to_case_in n (URLToRequestPath url) (URLToRequestPath url') ->
  same_up_to_case_in (S n)
    (url_path (Resolve base (URLToRequestPath url)))
    (url_path (Resolve base (URLToRequestPath url'))) ->
  StartDataRequest url = StartDataRequest url'.
Proof.
  intros base n S R. unfold StartDataRequest, PathWithoutParams.
  fold base. rewrite <- (same_up_to_case_StartsWith _ S).
  destruct (StartsWith (URLToRequestPath url) _ _); [|reflexivity].
  destruct (url_path (Resolve base (URLToRequestPath url))) as [|x a],
      (url_path (Resolve base (URLToRequestPath url'))) as [|y b];
    try (apply same_up_to_case_length in R; discriminate R);
    [reflexivity|].
  apply same_up_to_case_tail in R. fold n in R |- *.
  unfold substr at 1 3, std.substr. cbn [length Nat.leb skipn bind ret].
  rewrite <- (same_up_to_case_StartsWith _ R).
  unfold substr, std.substr.
  rewrite <- (same_up_to_case_length R).
  now rewrite (same_up_to_case_skipn R (k := n)) by lia.
Qed.

(** C10.  Both prefix tests ignore ASCII case.  For two paths that differ
    at most in the case of the characters of the prefix region, the test
    [StartsWith] gives the same answer, and the marker pass either strips
    both to the same remainder or leaves both as they are.  For two
    requests whose paths differ in this way in the region of the bundled
    prefix, and which URL resolution keeps alike in this way, the request
    is handled by the same provider with the same events. *)
Theorem prefix_tests_ignore_case :
  (forall prefix path path' : text,
      same_up_to_case_in (length prefix) path path' ->
      StartsWith path prefix INSENSITIVE_ASCII
      = StartsWith path' prefix INSENSITIVE_ASCII
      /\ (StripDevToolsRevisionWithPrefix path prefix
          = StripDevToolsRevisionWithPrefix path' prefix
          \/ (result (StripDevToolsRevisionWithPrefix path prefix) = Some path
              /\ result (StripDevToolsRevisionWithPrefix path' prefix)
                 = Some path')))
  /\ (forall url url' : GURL,
         let base :=
           GURL_of (StrCat [kChromeDevToolsScheme; kStandardSchemeSeparator;
                            kChromeUIDevToolsHost]) in
         let n := length (StrCat [kChromeUIDevToolsBundledPath; ("/" : text)]) in
         same_up_to_case_in n (URLToRequestPath url) (URLToRequestPath url') ->
         same_up_to_case_in (S n)
           (url_path (Resolve base (URLToRequestPath url)))
           (url_path (Resolve base (URLToRequestPath url'))) ->
         StartDataRequest url = StartDataRequest url'
         /\ handle url = handle url').
Proof.
  split.
  - intros prefix path path' S. split.
    + now apply same_up_to_case_StartsWith.
    + now apply Strip_same_up_to_case.
  - intros url url' base n S R.
    assert (StartDataRequest url = StartDataRequest url') as E
        by now apply StartDataRequest_same_up_to_case.
    split; [assumption|]. unfold handle. now rewrite E.
Qed.

End MarkerClaims.

(** ** The confined file request *)

Section FileRequest.

Context {H : Host}.

(** C1, amended.  When the confinement root is not a strict ancestor of
    the path formed by appending the requested path to it, the request is
    rejected before any read: nothing is posted to the thread pool and no
    file is read.  It is rejected by a failed check that ends the process,
    in every build, and the callback is not run: there is no not-found
    reply. *)
Theorem StartFileRequest_escape_is_fatal (path : text) (base_path : FilePath) :
  FileURLToFilePath GetCustomDevToolsFrontendURL = Some base_path ->
  IsParent base_path (AppendASCII base_path path) = false ->
  result (StartFileRequest path) = None
  /\ runs (trace (StartFileRequest path)) = 0
  /\ count is_post (trace (StartFileRequest path)) = 0
  /\ trace (ThreadPool (trace (StartFileRequest path))) = []
  /\ (SchemeIsFile GetCustomDevToolsFrontendURL = true ->
      In (EvFatal CheckFailed) (trace (StartFileRequest path))).
Proof.
  intros B P. unfold StartFileRequest, DCHECK, DLOG, CHECK.
  rewrite B, P.
  destruct DCHECK_IS_ON, (SchemeIsFile GetCustomDevToolsFrontendURL);
    cbn; intuition congruence.
Qed.

(** C4: what the code does.  A read that fails, whatever the cause, makes
    [ReadFileForDevTools] log one error line and return what
    [CreateNotFoundResponse] returns, and the posted task hands it to the
    same callback that receives the contents of a file that was read; the
    cause of the failure is in neither.  What is handed over is not the
    not-found text and not the null response: it is a buffer of 24 bytes
    whose contents are those of a stack frame that has returned. *)
Theorem ReadFileForDevTools_failure (path : FilePath) (cause : IOError) :
  file_read path = inl cause ->
  ReadFileForDevTools path
  = ([EvRead path; EvLog ERROR (StrCat [("Failed to read " : text); value path])],
     Some (Some (dead_stack 24)))
  /\ trace (run_posted (EvPost path))
     = [EvRead path;
        EvLog ERROR (StrCat [("Failed to read " : text); value path]);
        EvRun (Some (dead_stack 24))]
  /\ (forall contents other,
         file_read other = inr contents ->
         trace (run_posted (EvPost other))
         = [EvRead other; EvRun (Some contents)]).
Proof.
  intros F. unfold run_posted, ReadFileForDevTools, ReadFileToString.
  rewrite F. repeat split. intros contents other ->. reflexivity.
Qed.

(** C5.  A request whose path does not begin with the bundled prefix is
    answered at once with the null response, whatever the custom frontend
    is: the callback is run once, nothing is looked up in the bundled
    resources and nothing is posted. *)
Theorem StartDataRequest_outside_prefix (url : GURL) :
  StartsWith (URLToRequestPath url)
             (StrCat [kChromeUIDevToolsBundledPath; ("/" : text)])
             INSENSITIVE_ASCII = false ->
  StartDataRequest url = ([EvRun None], Some tt)
  /\ handle url = ([EvRun None], Some tt).
Proof.
  intros E. unfold handle, StartDataRequest. rewrite E. split; reflexivity.
Qed.

End FileRequest.

(** ** Replies *)

Lemma quiet_app (t t' : list Event) : quiet t -> quiet t' -> quiet (t ++ t').
Proof. unfold quiet. rewrite forallb_app. now intros -> ->. Qed.

Lemma quiet_counts (t : list Event) :
  quiet t ->
  runs t = 0 /\ count is_post t = 0 /\ count is_lookup t = 0
  /\ count is_read t = 0.
Proof.
  unfold quiet, runs, count. induction t as [|e t IH]; simpl; [auto|].
  rewrite andb_true_iff. intros [D Q]. destruct e; try discriminate; auto.
Qed.

Lemma quiet_replies (t : list Event) : quiet t -> replies t = 0.
Proof. intros Q. unfold replies. destruct (quiet_counts Q) as (-> & -> & _). reflexivity. Qed.

Lemma replies_app (t t' : list Event) :
  replies (t ++ t') = replies t + replies t'.
Proof. unfold replies, runs. rewrite !count_app. lia. Qed.

Lemma quiet_bind {A B} (m : M A) (f : A -> M B) :
  quiet (trace m) -> (forall a, quiet (trace (f a))) ->
  quiet (trace (bind m f)).
Proof.
  intros Qm Qf. rewrite trace_bind. apply quiet_app; [assumption|].
  destruct (result m); [apply Qf | reflexivity].
Qed.

Section Dispatch.

Context {H : Host}.

Lemma quiet_substr (s : text) (pos : nat) : quiet (trace (substr s pos)).
Proof. unfold substr. now destruct (std.substr s pos). Qed.

Lemma quiet_DLOG (sev : Severity) (msg : text) : quiet (trace (DLOG sev msg)).
Proof. unfold DLOG. now destruct DCHECK_IS_ON. Qed.

Lemma quiet_DCHECK (cond : bool) : quiet (trace (DCHECK cond)).
Proof. unfold DCHECK. now destruct DCHECK_IS_ON, cond. Qed.

Lemma quiet_PathWithoutParams (path : text) :
  quiet (trace (PathWithoutParams path)).
Proof. apply quiet_substr. Qed.

Lemma quiet_Strip (path prefix : text) :
  quiet (trace (StripDevToolsRevisionWithPrefix path prefix)).
Proof.
  unfold StripDevToolsRevisionWithPrefix.
  destruct (StartsWith _ _ _); [|reflexivity].
  destruct (std.find _ _ _); [apply quiet_substr|].
  apply quiet_bind; [apply quiet_DLOG | reflexivity].
Qed.

Lemma quiet_StripRevisionMarkers (path : text) :
  quiet (trace (StripRevisionMarkers path)).
Proof.
  unfold StripRevisionMarkers.
  repeat (apply quiet_bind; [apply quiet_Strip | intros ?]).
  apply quiet_Strip.
Qed.

(** The pool runs each posted read and then its callback, once. *)
Lemma run_posted_spec (e : Event) :
  result (run_posted e) = Some tt
  /\ runs (trace (run_posted e)) = (if is_post e then 1 else 0)
  /\ count is_post (trace (run_posted e)) = 0
  /\ count is_lookup (trace (run_posted e)) = 0.
Proof.
  destruct e; try (repeat split; reflexivity).
  unfold run_posted, ReadFileForDevTools.
  destruct (ReadFileToString full_path); repeat split; reflexivity.
Qed.

Lemma ThreadPool_spec (t : list Event) :
  result (ThreadPool t) = Some tt
  /\ runs (trace (ThreadPool t)) = count is_post t
  /\ count is_post (trace (ThreadPool t)) = 0
  /\ count is_lookup (trace (ThreadPool t)) = 0.
Proof.
  induction t as [|e t (R & N & P & L)]; [repeat split; reflexivity|].
  destruct (run_posted_spec e) as (Re & Ne & Pe & Le).
  cbn [ThreadPool]. rewrite result_bind, trace_bind, Re.
  unfold runs in *. rewrite !count_app, Ne, Pe, Le, N, P, L.
  repeat split; try assumption.
  unfold count. simpl. now destruct (is_post e).
Qed.

Lemma handle_trace (url : GURL) :
  trace (handle url)
  = trace (StartDataRequest url)
    ++ match result (StartDataRequest url) with
       | Some _ => trace (ThreadPool (trace (StartDataRequest url)))
       | None => []
       end.
Proof.
  unfold handle. destruct (StartDataRequest url) as [t [[]|]]; simpl.
  - now destruct (ThreadPool t).
  - now rewrite app_nil_r.
Qed.

Lemma handle_runs (url : GURL) :
  runs (trace (handle url))
  = match result (StartDataRequest url) with
    | Some _ => replies (trace (StartDataRequest url))
    | None => runs (trace (StartDataRequest url))
    end.
Proof.
  rewrite handle_trace. unfold replies, runs. rewrite count_app.
  destruct (result (StartDataRequest url)).
  - destruct (ThreadPool_spec (trace (StartDataRequest url))) as (_ & N & _).
    unfold runs in N. now rewrite N.
  - simpl. unfold count at 2. simpl. lia.
Qed.

Lemma StartFileRequest_replies (path : text) :
  replies (trace (StartFileRequest path)) <= 1
  /\ count is_lookup (trace (StartFileRequest path)) = 0
  /\ (result (StartFileRequest path) <> None ->
      replies (trace (StartFileRequest path)) = 1).
Proof.
  unfold StartFileRequest, DCHECK, DLOG, CHECK.
  destruct DCHECK_IS_ON, (SchemeIsFile GetCustomDevToolsFrontendURL),
    (FileURLToFilePath GetCustomDevToolsFrontendURL) as [base_path|];
    try destruct (IsParent base_path (AppendASCII base_path path));
    cbn; repeat split; auto; congruence.
Qed.

Lemma StartBundledDataRequest_replies (path : text) :
  replies (trace (StartBundledDataRequest path)) <= 1
  /\ count is_post (trace (StartBundledDataRequest path)) = 0
  /\ (result (StartBundledDataRequest path) <> None ->
      runs (trace (StartBundledDataRequest path)) = 1).
Proof.
  unfold StartBundledDataRequest, PathWithoutParams, substr, DLOG.
  destruct (std.substr _ 1) as [filename|];
    [|cbn; repeat split; auto; congruence].
  cbn [bind ret].
  destruct (GetFrontendResourceBytes filename), DCHECK_IS_ON;
    cbn; repeat split; auto.
Qed.

End Dispatch.

Lemma count_bind_quiet {A B} (p : Event -> bool) (m : M A) (f : A -> M B) :
  (forall e, diagnostic e = true -> p e = false) ->
  quiet (trace m) ->
  count p (trace (bind m f))
  = match result m with
    | Some a => count p (trace (f a))
    | None => 0
    end.
Proof.
  intros D Q. rewrite trace_bind, count_app.
  assert (count p (trace m) = 0) as ->.
  { unfold quiet, count in *. induction (trace m) as [|e t IH]; simpl in *;
      [reflexivity|].
    apply andb_true_iff in Q as [De Q]. rewrite (D e De). auto. }
  now destruct (result m).
Qed.

Lemma diagnostic_not_run e : diagnostic e = true -> is_run e = false.
Proof. now destruct e. Qed.
Lemma diagnostic_not_post e : diagnostic e = true -> is_post e = false.
Proof. now destruct e. Qed.
Lemma diagnostic_not_lookup e : diagnostic e = true -> is_lookup e = false.
Proof. now destruct e. Qed.

Lemma replies_bind_quiet {A B} (m : M A) (f : A -> M B) :
  quiet (trace m) ->
  replies (trace (bind m f))
  = match result m with
    | Some a => replies (trace (f a))
    | None => 0
    end.
Proof.
  intros Q. unfold replies, runs.
  rewrite (@count_bind_quiet _ _ is_run _ _ diagnostic_not_run Q),
    (@count_bind_quiet _ _ is_post _ _ diagnostic_not_post Q).
  now destruct (result m).
Qed.

Section Selector.

Context {H : Host}.

Lemma MaybeHandleCustomRequest_no_override (path : text) :
  is_valid GetCustomDevToolsFrontendURL = false ->
  MaybeHandleCustomRequest path = ([], Some false).
Proof. intros V. unfold MaybeHandleCustomRequest. now rewrite V. Qed.

Lemma MaybeHandleCustomRequest_remote (path : text) :
  is_valid GetCustomDevToolsFrontendURL = true ->
  SchemeIsFile GetCustomDevToolsFrontendURL = false ->
  result (MaybeHandleCustomRequest path) = Some true
  /\ quiet (trace (MaybeHandleCustomRequest path)).
Proof.
  intros V F. unfold MaybeHandleCustomRequest. rewrite V, F. cbn [negb].
  destruct (StripRevisionMarkers_returns path) as (s & E). split.
  - now rewrite result_bind, E.
  - apply quiet_bind; [apply quiet_StripRevisionMarkers | reflexivity].
Qed.

Lemma MaybeHandleCustomRequest_file (path : text) :
  is_valid GetCustomDevToolsFrontendURL = true ->
  SchemeIsFile GetCustomDevToolsFrontendURL = true ->
  replies (trace (MaybeHandleCustomRequest path)) <= 1
  /\ count is_lookup (trace (MaybeHandleCustomRequest path)) = 0
  /\ (result (MaybeHandleCustomRequest path) <> None ->
      result (MaybeHandleCustomRequest path) = Some true
      /\ replies (trace (MaybeHandleCustomRequest path)) = 1).
Proof.
  intros V F. unfold MaybeHandleCustomRequest. rewrite V, F. cbn [negb].
  rewrite (@replies_bind_quiet _ _ _ _ (quiet_StripRevisionMarkers path)),
    (@count_bind_quiet _ _ is_lookup _ _ diagnostic_not_lookup
       (quiet_StripRevisionMarkers path)), result_bind.
  destruct (result (StripRevisionMarkers path)) as [s|];
    [|repeat split; auto; congruence].
  rewrite (@replies_bind_quiet _ _ _ _ (quiet_PathWithoutParams s)),
    (@count_bind_quiet _ _ is_lookup _ _ diagnostic_not_lookup (quiet_PathWithoutParams s)),
    result_bind.
  destruct (result (PathWithoutParams s)) as [p|];
    [|repeat split; auto; congruence].
  destruct (StartFileRequest_replies p) as (L & K & E).
  rewrite trace_bind, result_bind, replies_app, count_app, K.
  destruct (result (StartFileRequest p)) as [[]|]; cbn.
  - rewrite Nat.add_0_r. repeat split; auto. apply E. discriminate.
  - rewrite Nat.add_0_r. repeat split; auto; congruence.
Qed.

(** What [StartDataRequest] does once the path under the bundled prefix is
    known. *)
Lemma selection_replies (path_under_bundled : text) :
  let m := handled <- MaybeHandleCustomRequest path_under_bundled ;;
           if negb handled then StartBundledDataRequest path_under_bundled
           else ret tt in
  replies (trace m) <= 1
  /\ (result m <> None ->
      ~ (is_valid GetCustomDevToolsFrontendURL = true
         /\ SchemeIsFile GetCustomDevToolsFrontendURL = false) ->
      replies (trace m) = 1)
  /\ (is_valid GetCustomDevToolsFrontendURL = false ->
      count is_post (trace m) = 0)
  /\ (is_valid GetCustomDevToolsFrontendURL = true ->
      SchemeIsFile GetCustomDevToolsFrontendURL = false ->
      result m = Some tt /\ quiet (trace m)).
Proof.
  intros m. subst m.
  destruct (is_valid GetCustomDevToolsFrontendURL) eqn:V.
  - destruct (SchemeIsFile GetCustomDevToolsFrontendURL) eqn:F.
    + destruct (MaybeHandleCustomRequest_file path_under_bundled V F)
        as (L & _ & E).
      rewrite trace_bind, result_bind, replies_app.
      destruct (result (MaybeHandleCustomRequest path_under_bundled))
        as [handled|].
      * destruct E as [E1 E2]; [discriminate|]. injection E1 as ->.
        cbn. rewrite Nat.add_0_r. repeat split; auto; congruence.
      * cbn. rewrite Nat.add_0_r. repeat split; auto; congruence.
    + destruct (MaybeHandleCustomRequest_remote path_under_bundled V F)
        as (R & Q).
      rewrite trace_bind, result_bind, replies_app, R. cbn.
      rewrite app_nil_r, Nat.add_0_r, (quiet_replies Q).
      repeat split; auto; try congruence. intros _ N. exfalso. auto.
  - rewrite (MaybeHandleCustomRequest_no_override _ V). cbn [bind negb ret].
    destruct (StartBundledDataRequest path_under_bundled) as [t r] eqn:B.
    cbn [app].
    destruct (StartBundledDataRequest_replies path_under_bundled)
      as (L & P & E).
    rewrite B in L, P, E. repeat split; auto; try congruence.
    intros N _. unfold replies. rewrite P, (E N). reflexivity.
Qed.

Lemma StartDataRequest_replies (url : GURL) :
  replies (trace (StartDataRequest url)) <= 1
  /\ (result (StartDataRequest url) <> None ->
      ~ (StartsWith (URLToRequestPath url)
                    (StrCat [kChromeUIDevToolsBundledPath; ("/" : text)])
                    INSENSITIVE_ASCII = true
         /\ is_valid GetCustomDevToolsFrontendURL = true
         /\ SchemeIsFile GetCustomDevToolsFrontendURL = false) ->
      replies (trace (StartDataRequest url)) = 1)
  /\ (is_valid GetCustomDevToolsFrontendURL = false ->
      count is_post (trace (StartDataRequest url)) = 0)
  /\ (StartsWith (URLToRequestPath url)
                 (StrCat [kChromeUIDevToolsBundledPath; ("/" : text)])
                 INSENSITIVE_ASCII = true ->
      is_valid GetCustomDevToolsFrontendURL = true ->
      SchemeIsFile GetCustomDevToolsFrontendURL = false ->
      quiet (trace (StartDataRequest url))).
Proof.
  unfold StartDataRequest.
  destruct (StartsWith (URLToRequestPath url) _ _);
    [|cbn; repeat split; auto; discriminate].
  set (prefix := StrCat [kChromeUIDevToolsBundledPath; ("/" : text)]).
  pose proof (quiet_PathWithoutParams (URLToRequestPath url)) as Q1.
  rewrite (@replies_bind_quiet _ _ _ _ Q1),
    (@count_bind_quiet _ _ is_post _ _ diagnostic_not_post Q1), result_bind.
  split; [|split; [|split]].
  4: { intros _ V F. apply quiet_bind; [assumption|]. intros a.
       apply quiet_bind; [apply quiet_DCHECK|]. intros _.
       apply quiet_bind; [apply quiet_substr|]. intros b.
       now apply selection_replies. }
  all: destruct (result (PathWithoutParams (URLToRequestPath url))) as [a|];
    [|auto; congruence].
  all: pose proof (quiet_DCHECK
                     (StartsWith a prefix INSENSITIVE_ASCII)) as Q2;
    rewrite ?(@replies_bind_quiet _ _ _ _ Q2),
      ?(@count_bind_quiet _ _ is_post _ _ diagnostic_not_post Q2), ?result_bind;
    destruct (result (DCHECK (StartsWith a prefix INSENSITIVE_ASCII)));
    [|auto; congruence].
  all: pose proof (quiet_substr a (length prefix)) as Q3;
    rewrite ?(@replies_bind_quiet _ _ _ _ Q3),
      ?(@count_bind_quiet _ _ is_post _ _ diagnostic_not_post Q3), ?result_bind;
    destruct (result (substr a (length prefix))) as [b|];
    [|auto; congruence].
  all: destruct (selection_replies b) as (L & E & P & _); auto.
Qed.

End Selector.

Section Replies.

Context {H : Host}.

Lemma handle_result (url : GURL) :
  result (handle url) = result (StartDataRequest url).
Proof.
  unfold handle. destruct (StartDataRequest url) as [t [[]|]] eqn:E;
    [|reflexivity].
  destruct (ThreadPool_spec t) as (R & _).
  destruct (ThreadPool t). simpl in *. congruence.
Qed.

(** C2, amended.  The callback is never run twice.  When the request does
    not end the process in a failed check, and is not a request under the
    bundled prefix made while a custom frontend that is not a file URL is
    configured, the callback is run exactly once: [StartDataRequest]
    either runs it itself or posts exactly one read whose reply runs it,
    and without a valid custom frontend it runs it itself. *)
Theorem handle_replies_once (url : GURL) :
  runs (trace (handle url)) <= 1
  /\ (result (handle url) <> None ->
      ~ (StartsWith (URLToRequestPath url)
                    (StrCat [kChromeUIDevToolsBundledPath; ("/" : text)])
                    INSENSITIVE_ASCII = true
         /\ is_valid GetCustomDevToolsFrontendURL = true
         /\ SchemeIsFile GetCustomDevToolsFrontendURL = false) ->
      runs (trace (handle url)) = 1
      /\ runs (trace (StartDataRequest url))
         + count is_post (trace (StartDataRequest url)) = 1
      /\ (is_valid GetCustomDevToolsFrontendURL = false ->
          runs (trace (StartDataRequest url)) = 1)).
Proof.
  destruct (StartDataRequest_replies url) as (L & E & P & _).
  rewrite handle_runs, handle_result. split.
  - destruct (result (StartDataRequest url)); [assumption|].
    unfold replies in L. lia.
  - intros N R. specialize (E N R).
    destruct (result (StartDataRequest url)); [|congruence].
    repeat split; try assumption.
    intros V. specialize (P V). unfold replies in E. lia.
Qed.

(** C3: what the code does.  Under the bundled prefix, with a custom
    frontend that is valid and not a file URL, [MaybeHandleCustomRequest]
    returns [true], so the bundled resources are not consulted; and the
    request ends with the callback never run and nothing posted: no
    response of any kind is produced. *)
Theorem remote_override_never_replies (url : GURL) :
  StartsWith (URLToRequestPath url)
             (StrCat [kChromeUIDevToolsBundledPath; ("/" : text)])
             INSENSITIVE_ASCII = true ->
  is_valid GetCustomDevToolsFrontendURL = true ->
  SchemeIsFile GetCustomDevToolsFrontendURL = false ->
  runs (trace (handle url)) = 0
  /\ count is_post (trace (handle url)) = 0
  /\ count is_lookup (trace (handle url)) = 0
  /\ (forall path, result (MaybeHandleCustomRequest path) = Some true).
Proof.
  intros S V F.
  destruct (StartDataRequest_replies url) as (_ & _ & _ & Q).
  specialize (Q S V F).
  destruct (quiet_counts Q) as (R & P & L & _).
  destruct (ThreadPool_spec (trace (StartDataRequest url)))
    as (_ & R' & P' & L').
  rewrite handle_trace. unfold runs in *. rewrite !count_app, R, P, L.
  split; [|split; [|split]].
  4: { intros path. now apply MaybeHandleCustomRequest_remote. }
  all: destruct (result (StartDataRequest url)); [|reflexivity]; simpl; lia.
Qed.

End Replies.

(** ** URL resolution in the model *)

Module ModelFacts.
Import Model.

Lemma split_not_nil (c : ascii) (s : text) : split c s <> [].
Proof.
  induction s as [|x s IH]; simpl; [discriminate|].
  destruct (Ascii.eqb x c); [discriminate|].
  destruct (split c s); [contradiction | discriminate].
Qed.

Lemma split_segments (c : ascii) (s : text) :
  forall seg, In seg (split c s) -> ~ In c seg.
Proof.
  induction s as [|x s IH]; simpl.
  - intros seg [<-|[]]. auto.
  - destruct (Ascii.eqb_spec x c) as [->|D].
    + intros seg [<-|I]; auto.
    + destruct (split c s) as [|h t].
      * intros seg [<-|[]]. intros [E|[]]. auto.
      * intros seg [<-|I].
        -- intros [E|I]; [auto|]. apply (IH h); simpl; auto.
        -- apply IH. simpl. auto.
Qed.

Lemma split_whole (c : ascii) (a : text) : ~ In c a -> split c a = [a].
Proof.
  induction a as [|x a IH]; simpl; intros N; [reflexivity|].
  destruct (Ascii.eqb_spec x c) as [->|_]; [exfalso; auto|].
  rewrite IH by tauto. reflexivity.
Qed.

Lemma split_app (c : ascii) (a rest : text) :
  ~ In c a -> split c (a ++ c :: rest) = a :: split c rest.
Proof.
  induction a as [|x a IH]; simpl; intros N.
  - now rewrite Ascii.eqb_refl.
  - destruct (Ascii.eqb_spec x c) as [->|_]; [exfalso; auto|].
    rewrite IH by tauto. reflexivity.
Qed.

Lemma split_join (c : ascii) (l : list text) :
  l <> [] -> (forall seg, In seg l -> ~ In c seg) ->
  split c (join c l) = l.
Proof.
  induction l as [|a l IH]; [congruence|]. intros _ N.
  destruct l as [|b l].
  - simpl. apply split_whole. apply N. simpl. auto.
  - change (join c (a :: b :: l)) with (a ++ c :: join c (b :: l)).
    rewrite split_app by (apply N; simpl; auto).
    rewrite IH; [reflexivity | discriminate |].
    intros seg I. apply N. simpl in *. tauto.
Qed.

Lemma is_dotdot_eq (s : text) : is_dotdot s = true <-> s = "..".
Proof. apply text_eqb_eq. Qed.

(** What [collapse] keeps was on the stack or is a segment other than
    [..], or is the empty segment of a trailing separator. *)
Lemma collapse_keeps (segs stack : list text) :
  forall x, In x (collapse stack segs) ->
            x = [] \/ In x stack \/ (In x segs /\ is_dotdot x = false).
Proof.
  revert stack. induction segs as [|s rest IH]; intros stack x.
  - simpl. rewrite <- in_rev. auto.
  - assert (forall l : list text, In x (tl l) -> In x l) as T
        by (intros [|? ?]; simpl; auto).
    destruct rest as [|s' rest'].
    + cbn [collapse].
      destruct (is_dot s) eqn:D; [|destruct (is_dotdot s) eqn:DD];
        rewrite <- in_rev; intros [<-|I]; simpl; auto.
    + remember (s' :: rest') as rest eqn:R.
      cbn [collapse]. rewrite R at 1.
      destruct (is_dot s) eqn:D; [|destruct (is_dotdot s) eqn:DD];
        intros I; apply IH in I;
        destruct I as [I|[I|[I K]]]; simpl; auto.
      destruct I as [<-|I]; auto.
Qed.

Lemma collapse_not_nil (segs stack : list text) :
  segs <> [] -> collapse stack segs <> [].
Proof.
  revert stack. induction segs as [|s rest IH]; [congruence|].
  intros stack _. destruct rest as [|s' rest'].
  - cbn [collapse].
    destruct (is_dot s); [|destruct (is_dotdot s)];
      simpl; intros E; apply app_eq_nil in E as [_ E]; discriminate.
  - remember (s' :: rest') as rest eqn:R.
    cbn [collapse]. rewrite R at 1.
    destruct (is_dot s); [|destruct (is_dotdot s)]; apply IH;
      subst; discriminate.
Qed.

Lemma stays_under_root_no_dotdot (segs : list text) (depth : nat) :
  ~ In (".." : text) segs -> stays_under_root depth segs = true.
Proof.
  revert depth. induction segs as [|s rest IH]; intros depth N;
    [reflexivity|].
  simpl. destruct (is_dotdot s) eqn:D.
  - apply is_dotdot_eq in D. exfalso. apply N. simpl. auto.
  - destruct (is_dot s || text_eqb s []); apply IH; simpl in N; tauto.
Qed.

(** The path of a resolved URL without its leading separator has no [..]
    segment. *)
Lemma remove_dot_segments_canonical (rest : text) :
  exists canonical,
    remove_dot_segments ("/"%char :: rest) = "/"%char :: canonical
    /\ ~ In (".." : text) (split "/" canonical).
Proof.
  unfold remove_dot_segments. eexists. split; [reflexivity|].
  cbn [split]. rewrite Ascii.eqb_refl. cbn [tl].
  pose proof (split_segments "/" rest) as S.
  rewrite split_join.
  - intros I. apply collapse_keeps in I as [E|[[]|[_ D]]];
      [discriminate|]. unfold is_dotdot in D.
    now rewrite text_eqb_refl in D.
  - apply collapse_not_nil, split_not_nil.
  - intros seg I. apply collapse_keeps in I as [->|[[]|[I _]]]; auto.
Qed.

End ModelFacts.

(** C8.  In the model of URL resolution, [PathWithoutParams] returns a
    path for every raw path, with or without [..] segments; that path has
    no [..] segment, and walking its segments from the virtual root never
    steps above the root. *)
Theorem PathWithoutParams_no_dotdot
    (debug : bool) (switch : option text)
    (files : list (text * (IOError + text))) (bundle : list (text * text))
    (raw : text) :
  exists canonical,
    PathWithoutParams (H := Model.host debug switch files bundle) raw
    = ([], Some canonical)
    /\ ~ In (".." : text) (Model.split "/" canonical)
    /\ stays_under_root 0 (Model.split "/" canonical) = true.
Proof.
  unfold PathWithoutParams.
  cbn [Resolve url_path GURL_of Model.host kChromeDevToolsScheme
       kStandardSchemeSeparator kChromeUIDevToolsHost].
  change (Model.parse (StrCat [("devtools" : text); ("://" : text);
                               ("devtools" : text)]))
    with {| Model.u_valid := true; Model.u_scheme := "devtools";
            Model.u_host := "devtools"; Model.u_path := ["/"%char];
            Model.u_query := None |}.
  unfold Model.resolve. cbn [Model.u_valid Model.u_path].
  change (Model.directory ["/"%char]) with ["/"%char].
  set (ref_path := Model.before "?" (Model.before "#" raw)).
  assert (exists rest,
             match ref_path with
             | "/"%char :: _ => ref_path
             | _ => ["/"%char] ++ ref_path
             end = "/"%char :: rest) as (rest & ->).
  { destruct ref_path as [|x r]; [now exists []|].
    destruct (ascii_dec x "/") as [->|D]; [now exists r|].
    exists (x :: r).
    destruct x as [[] [] [] [] [] [] [] []]; try reflexivity.
    now contradiction D. }
  destruct (ModelFacts.remove_dot_segments_canonical rest)
    as (canonical & -> & N).
  exists canonical. repeat split; [assumption|].
  now apply ModelFacts.stays_under_root_no_dotdot.
Qed.

(** * The properties at concrete requests *)

Example mime_upper_case_html :
  GetMimeTypeForUrl (H := plain_host) (request "bundled/FOO.HTML")
  = text_of_string "text/html"
  /\ GetMimeTypeForUrl (H := plain_host) (request "bundled/foo.html")
     = text_of_string "text/html"
  /\ GetMimeTypeForUrl (H := plain_host) (request "bundled/foo.xyz")
     = text_of_string "text/html"
  /\ GetMimeTypeForUrl (H := plain_host) (request "bundled/Worker.MJS")
     = text_of_string "application/javascript"
  /\ GetMimeTypeForUrl (H := plain_host) (request "bundled/README")
     = text_of_string "text/html".
Proof. repeat split; reflexivity. Qed.

Example bundled_request_is_served :
  handle (H := plain_host) (request "bundled/inspector.js?ws=localhost")
  = ([EvLookup "inspector.js"; EvRun (Some (text_of_string "void 0;"))],
     Some tt).
Proof. reflexivity. Qed.

Example file_request_is_served :
  handle (H := local_host false)
         (request "bundled/serve_file/@123/inspector.html")
  = ([EvPost {| value := "/opt/frontend/inspector.html" |};
      EvRead {| value := "/opt/frontend/inspector.html" |};
      EvRun (Some (text_of_string "<html></html>"))],
     Some tt).
Proof. reflexivity. Qed.

(** C1, as stated, fails: in a build without DCHECKs, a request for the
    confinement root itself does not pass [IsParent], and the request ends
    in a failed [CHECK] with the callback not run, not in a not-found
    reply. *)
Lemma StartFileRequest_root_itself_terminates :
  DCHECK_IS_ON (Host := local_host false) = false
  /\ FileURLToFilePath (Host := local_host false)
       (GetCustomDevToolsFrontendURL (H := local_host false))
     = Some {| value := "/opt/frontend" |}
  /\ IsParent (Host := local_host false)
       {| value := "/opt/frontend" |}
       (AppendASCII (Host := local_host false)
                    {| value := "/opt/frontend" |} [])
     = false
  /\ StartFileRequest (H := local_host false) []
     = ([EvFatal CheckFailed], None)
  /\ ~ In (EvRun (CreateNotFoundResponse (H := local_host false)))
          (trace (StartFileRequest (H := local_host false) [])).
Proof.
  repeat split. vm_compute. intros [E|[]]. discriminate E.
Qed.

Lemma StartFileRequest_escape_is_fatal_witness :
  FileURLToFilePath (Host := local_host true)
    (GetCustomDevToolsFrontendURL (H := local_host true))
  = Some {| value := "/opt/frontend" |}
  /\ IsParent (Host := local_host true)
       {| value := "/opt/frontend" |}
       (AppendASCII (Host := local_host true)
                    {| value := "/opt/frontend" |} [])
     = false
  /\ result (StartFileRequest (H := local_host true) []) = None.
Proof.
  assert (FileURLToFilePath (Host := local_host true)
            (GetCustomDevToolsFrontendURL (H := local_host true))
          = Some {| value := "/opt/frontend" |}) as B
      by (vm_compute; reflexivity).
  assert (IsParent (Host := local_host true)
            {| value := "/opt/frontend" |}
            (AppendASCII (Host := local_host true)
                         {| value := "/opt/frontend" |} [])
          = false) as P
      by (vm_compute; reflexivity).
  split; [exact B|]. split; [exact P|].
  exact (proj1 (StartFileRequest_escape_is_fatal
                  (H := local_host true) [] B P)).
Defined.

(** C2, as stated, fails: the request for the directory of the custom
    frontend matches the bundled prefix and ends with the callback run
    zero times. *)
Lemma handle_directory_request_never_replies :
  StartsWith (URLToRequestPath (Host := local_host false)
                               (request "bundled/"))
             "bundled/" INSENSITIVE_ASCII = true
  /\ handle (H := local_host false) (request "bundled/")
     = ([EvFatal CheckFailed], None)
  /\ runs (trace (handle (H := local_host false) (request "bundled/"))) = 0.
Proof. repeat split. Qed.

Lemma handle_replies_once_witness :
  result (handle (H := local_host false)
                 (request "bundled/serve_file/@123/inspector.html"))
  <> None
  /\ SchemeIsFile (Host := local_host false)
       (GetCustomDevToolsFrontendURL (H := local_host false)) = true
  /\ runs (trace (handle (H := local_host false)
                    (request "bundled/serve_file/@123/inspector.html")))
     = 1.
Proof.
  split; [discriminate|]. split; [reflexivity|].
  apply (handle_replies_once (H := local_host false)
           (request "bundled/serve_file/@123/inspector.html")).
  - discriminate.
  - intros (_ & _ & F). discriminate F.
Defined.

Lemma remote_override_never_replies_witness :
  StartsWith (URLToRequestPath (Host := remote_host)
                               (request "bundled/inspector.js"))
             "bundled/" INSENSITIVE_ASCII = true
  /\ is_valid (Host := remote_host)
       (GetCustomDevToolsFrontendURL (H := remote_host)) = true
  /\ SchemeIsFile (Host := remote_host)
       (GetCustomDevToolsFrontendURL (H := remote_host)) = false
  /\ runs (trace (handle (H := remote_host) (request "bundled/inspector.js")))
     = 0.
Proof.
  split; [reflexivity|]. split; [reflexivity|]. split; [reflexivity|].
  apply (remote_override_never_replies (H := remote_host)
           (request "bundled/inspector.js"));
    reflexivity.
Defined.

(** The request the remote frontend drops, traced. *)
Example remote_request_is_dropped :
  handle (H := remote_host) (request "bundled/inspector.js") = ([], Some tt)
  /\ MaybeHandleCustomRequest (H := remote_host) "inspector.js"
     = ([], Some true).
Proof. split; reflexivity. Qed.

Lemma ReadFileForDevTools_failure_witness :
  file_read (Host := local_host false)
            {| value := "/opt/frontend/locked.js" |}
  = inl PermissionDenied
  /\ result (ReadFileForDevTools (H := local_host false)
               {| value := "/opt/frontend/locked.js" |})
     = Some (Some (repeat "000"%char 24))
  /\ result (ReadFileForDevTools (H := local_host false)
               {| value := "/opt/frontend/locked.js" |})
     <> Some (Some kHttpNotFound)
  /\ result (ReadFileForDevTools (H := local_host false)
               {| value := "/opt/frontend/locked.js" |})
     <> Some None.
Proof.
  split; [reflexivity|].
  rewrite (proj1 (ReadFileForDevTools_failure (H := local_host false)
                    {| value := "/opt/frontend/locked.js" |}
                    (cause := PermissionDenied) eq_refl)).
  split; [reflexivity|]. split; intros E; discriminate E.
Defined.

Lemma StartDataRequest_outside_prefix_witness :
  StartsWith (URLToRequestPath (Host := plain_host)
                               (request "other/inspector.js"))
             "bundled/" INSENSITIVE_ASCII = false
  /\ handle (H := plain_host) (request "other/inspector.js")
     = ([EvRun None], Some tt).
Proof.
  split; [reflexivity|].
  apply (StartDataRequest_outside_prefix (H := plain_host)
           (request "other/inspector.js")).
  reflexivity.
Defined.

(** C7, as stated, fails: on a path where a separator follows the marker
    at once, the pass does not return the remainder after that separator.
    The search starts one character after the marker, so this separator
    is passed over; with no other one the path comes back unchanged, and
    with another one more than the revision is cut off. *)
Lemma Strip_passes_over_adjacent_separator :
  StartsWith "serve_rev//inspector.html" "serve_rev/" INSENSITIVE_ASCII = true
  /\ strip_as_documented "serve_rev//inspector.html" "serve_rev/"
     = text_of_string "inspector.html"
  /\ result (StripDevToolsRevisionWithPrefix (H := local_host false)
               "serve_rev//inspector.html" "serve_rev/")
     = Some (text_of_string "serve_rev//inspector.html")
  /\ strip_as_documented "serve_rev//panels/a.js" "serve_rev/"
     = text_of_string "panels/a.js"
  /\ result (StripDevToolsRevisionWithPrefix (H := local_host false)
               "serve_rev//panels/a.js" "serve_rev/")
     = Some (text_of_string "a.js").
Proof. repeat split. Qed.

Lemma Strip_skips_marker_and_revision_witness :
  map ToLowerASCII (text_of_string "Serve_File/")
  = map ToLowerASCII (text_of_string "serve_file/")
  /\ result (StripDevToolsRevisionWithPrefix (H := local_host true)
               "Serve_File/123/inspector.html" "serve_file/")
     = Some (text_of_string "inspector.html")
  /\ result (StripDevToolsRevisionWithPrefix (H := local_host true)
               "Serve_File/123" "serve_file/")
     = Some (text_of_string "Serve_File/123").
Proof.
  assert (map ToLowerASCII (text_of_string "Serve_File/")
          = map ToLowerASCII (text_of_string "serve_file/")) as E
      by (vm_compute; reflexivity).
  destruct (Strip_skips_marker_and_revision (H := local_host true)
              (text_of_string "serve_file/") (text_of_string "Serve_File/") E)
    as [S K].
  split; [exact E|]. split.
  - apply (S "1"%char (text_of_string "23") (text_of_string "inspector.html")).
    simpl. intros [D|[D|[]]]; discriminate D.
  - apply (K (text_of_string "123")).
    simpl. intros [D|[D|[]]]; discriminate D.
Defined.

Lemma StripRevisionMarkers_idempotent_witness :
  result (StripRevisionMarkers (H := local_host true)
            "serve_file/123/inspector.html")
  = Some (text_of_string "inspector.html")
  /\ (forall marker, In marker revision_markers ->
        StartsWith "inspector.html" marker INSENSITIVE_ASCII = false)
  /\ result (StripRevisionMarkers (H := local_host true) "inspector.html")
     = Some (text_of_string "inspector.html").
Proof.
  assert (forall marker, In marker revision_markers ->
            StartsWith "inspector.html" marker INSENSITIVE_ASCII = false) as N
      by (intros marker [<-|[<-|[<-|[]]]]; reflexivity).
  destruct (StripRevisionMarkers_idempotent (H := local_host true)
              "serve_file/123/inspector.html") as (once & E & I).
  vm_compute in E. injection E as <-.
  split; [reflexivity|]. split; [exact N|]. exact (I N).
Defined.

(** Without the condition of C9 the passes are not idempotent: a marker
    that the first run uncovers is stripped by the second. *)
Example StripRevisionMarkers_twice_differs :
  result (StripRevisionMarkers (H := local_host false)
            "serve_rev/@1/serve_rev/@2/a.js")
  = Some (text_of_string "serve_rev/@2/a.js")
  /\ result (StripRevisionMarkers (H := local_host false) "serve_rev/@2/a.js")
     = Some (text_of_string "a.js").
Proof. split; reflexivity. Qed.

Lemma prefix_tests_ignore_case_witness :
  same_up_to_case_in 10 "SERVE_REV/@1/a.js" "serve_rev/@1/a.js"
  /\ StartsWith "SERVE_REV/@1/a.js" "serve_rev/" INSENSITIVE_ASCII
     = StartsWith "serve_rev/@1/a.js" "serve_rev/" INSENSITIVE_ASCII
  /\ same_up_to_case_in 8
       (URLToRequestPath (Host := local_host false)
                         (request "BUNDLED/inspector.html"))
       (URLToRequestPath (Host := local_host false)
                         (request "bundled/inspector.html"))
  /\ handle (H := local_host false) (request "BUNDLED/inspector.html")
     = handle (H := local_host false) (request "bundled/inspector.html").
Proof.
  assert (same_up_to_case_in (length (text_of_string "serve_rev/"))
            "SERVE_REV/@1/a.js" "serve_rev/@1/a.js") as S
      by (split; vm_compute; reflexivity).
  destruct (prefix_tests_ignore_case (H := local_host false)) as [A B].
  split; [exact S|]. split; [exact (proj1 (A _ _ _ S))|].
  assert (same_up_to_case_in 8
            (URLToRequestPath (Host := local_host false)
                              (request "BUNDLED/inspector.html"))
            (URLToRequestPath (Host := local_host false)
                              (request "bundled/inspector.html"))) as R
      by (split; vm_compute; reflexivity).
  split; [exact R|].
  refine (proj2 (B (request "BUNDLED/inspector.html")
                   (request "bundled/inspector.html") R _)).
  split; vm_compute; reflexivity.
Defined.

(** * Further properties of the data source *)

(** ** The marker pass removes a prefix *)

Lemma find_ge (s : text) (c : ascii) (pos i : nat) :
  std.find s c pos = Some i -> pos <= i.
Proof.
  rewrite find_skipn. destruct (std.find (skipn pos s) c 0); simpl;
    [intros [= <-]; lia | discriminate].
Qed.

Lemma find_nth (s : text) (c : ascii) (pos i : nat) :
  std.find s c pos = Some i -> nth_error s i = Some c.
Proof.
  revert pos i. induction s as [|x s IH]; simpl; [discriminate|].
  intros [|pos] i.
  - destruct (Ascii.eqb_spec x c) as [->|_]; [now intros [= <-]|].
    destruct (std.find s c 0) eqn:F; simpl; [intros [= <-]|discriminate].
    simpl. eauto.
  - destruct (std.find s c pos) eqn:F; simpl; [intros [= <-]|discriminate].
    simpl. eauto.
Qed.

Lemma firstn_succ (s : text) (c : ascii) (i : nat) :
  nth_error s i = Some c -> firstn (S i) s = firstn i s ++ [c].
Proof.
  revert i. induction s as [|x s IH]; intros [|i]; simpl;
    try discriminate.
  - now intros [= ->].
  - intros E. now rewrite <- IH.
Qed.

Section MarkerPass.

Context {H : Host}.

(** X1.  One pass always returns, and what it returns is the path with a
    prefix cut off.  When the cut is not empty, the path began with the
    marker, and the cut is longer than the marker by at least two
    characters and ends with a separator. *)
Theorem Strip_removes_a_prefix (path prefix : text) :
  exists front stripped,
    result (StripDevToolsRevisionWithPrefix path prefix) = Some stripped
    /\ path = front ++ stripped
    /\ (front = []
        \/ (StartsWith path prefix INSENSITIVE_ASCII = true
            /\ length prefix + 1 < length front
            /\ exists body, front = body ++ ["/"%char])).
Proof.
  unfold StripDevToolsRevisionWithPrefix.
  destruct (StartsWith path prefix INSENSITIVE_ASCII) eqn:SW;
    [|exists [], path; auto].
  destruct (std.find _ _ _) as [found|] eqn:F.
  - pose proof (find_lt _ _ _ F) as L. pose proof (find_ge _ _ _ F) as G.
    pose proof (find_nth _ _ _ F) as N.
    rewrite substr_in_range by lia.
    exists (firstn (found + 1) path), (skipn (found + 1) path).
    split; [reflexivity|]. split; [now rewrite firstn_skipn|]. right.
    split; [reflexivity|]. split.
    + rewrite length_firstn. lia.
    + exists (firstn found path).
      replace (found + 1) with (S found) by lia. now apply firstn_succ.
  - exists [], path. split; [|auto]. unfold DLOG. now destruct DCHECK_IS_ON.
Qed.

Lemma Strip_suffix (path prefix : text) :
  exists front stripped,
    result (StripDevToolsRevisionWithPrefix path prefix) = Some stripped
    /\ path = front ++ stripped
    /\ (DCHECK_IS_ON = false ->
        StripDevToolsRevisionWithPrefix path prefix = ([], Some stripped)).
Proof.
  unfold StripDevToolsRevisionWithPrefix.
  destruct (StartsWith path prefix INSENSITIVE_ASCII);
    [|exists [], path; auto].
  destruct (std.find _ _ _) as [found|] eqn:F.
  - pose proof (find_lt _ _ _ F) as L.
    rewrite substr_in_range by lia.
    exists (firstn (found + 1) path), (skipn (found + 1) path).
    now rewrite firstn_skipn.
  - exists [], path. unfold DLOG. destruct DCHECK_IS_ON; auto.
    repeat split. discriminate.
Qed.

(** X2.  The three passes of [MaybeHandleCustomRequest] always return, and
    what they return is the path with a prefix cut off; in a build without
    DCHECKs they leave no event at all. *)
Theorem StripRevisionMarkers_removes_a_prefix (path : text) :
  exists front stripped,
    result (StripRevisionMarkers path) = Some stripped
    /\ path = front ++ stripped
    /\ (DCHECK_IS_ON = false ->
        StripRevisionMarkers path = ([], Some stripped)).
Proof.
  unfold StripRevisionMarkers.
  destruct (Strip_suffix path "serve_rev/") as (f1 & s1 & R1 & -> & Q1).
  destruct (Strip_suffix s1 "serve_file/") as (f2 & s2 & R2 & -> & Q2).
  destruct (Strip_suffix s2 "serve_internal_file/")
    as (f3 & s3 & R3 & -> & Q3).
  exists (f1 ++ f2 ++ f3), s3. split; [|split].
  - rewrite result_bind, R1. cbn iota. now rewrite result_bind, R2.
  - now rewrite <- !app_assoc.
  - intros D. rewrite (Q1 D). cbn [bind]. rewrite (Q2 D). cbn [bind app].
    now rewrite (Q3 D).
Qed.

(** X3.  A path that carries the three markers in the order of the passes,
    each followed by a revision of at least one character and a
    separator, loses all three in one run. *)
Theorem StripRevisionMarkers_nested
    (m1 m2 m3 r1 r2 r3 rest : text) (c1 c2 c3 : ascii) :
  map ToLowerASCII m1 = map ToLowerASCII (text_of_string "serve_rev/") ->
  map ToLowerASCII m2 = map ToLowerASCII (text_of_string "serve_file/") ->
  map ToLowerASCII m3
  = map ToLowerASCII (text_of_string "serve_internal_file/") ->
  ~ In "/"%char r1 -> ~ In "/"%char r2 -> ~ In "/"%char r3 ->
  StripRevisionMarkers
    (m1 ++ c1 :: r1 ++ "/"%char
        :: m2 ++ c2 :: r2 ++ "/"%char
        :: m3 ++ c3 :: r3 ++ "/"%char :: rest)
  = ([], Some rest).
Proof.
  intros E1 E2 E3 N1 N2 N3. unfold StripRevisionMarkers.
  rewrite Strip_revision by assumption. cbn [bind ret].
  rewrite Strip_revision by assumption. cbn [bind ret app].
  now rewrite Strip_revision by assumption.
Qed.

End MarkerPass.

(** ** Effects of a request *)

Lemma effects_app (t t' : list Event) :
  effects (t ++ t') = effects t ++ effects t'.
Proof. apply filter_app. Qed.

Lemma effects_quiet (t : list Event) : quiet t -> effects t = [].
Proof.
  unfold quiet, effects. induction t as [|e t IH]; simpl; [reflexivity|].
  rewrite andb_true_iff. intros [-> Q]. simpl. auto.
Qed.

Lemma in_effects (e : Event) (t : list Event) :
  diagnostic e = false -> In e t -> In e (effects t).
Proof. intros D I. apply filter_In. now rewrite D. Qed.

Lemma quiet_has_no_effect (e : Event) (t : list Event) :
  quiet t -> diagnostic e = false -> ~ In e t.
Proof.
  intros Q D I. apply (@in_effects e t D) in I.
  now rewrite (@effects_quiet t Q) in I.
Qed.

(** A computation that starts with a quiet step either stops there, or
    goes on with the value of the step. *)
Lemma bind_quiet_inv {A B} (m : M A) (f : A -> M B) :
  quiet (trace m) ->
  (quiet (trace (bind m f)) /\ result (bind m f) = None)
  \/ exists a,
      result m = Some a
      /\ trace (bind m f) = trace m ++ trace (f a)
      /\ result (bind m f) = result (f a).
Proof.
  intros Q. rewrite trace_bind, result_bind.
  destruct (result m) as [a|]; [right; eauto|].
  left. now rewrite app_nil_r.
Qed.

Lemma bind_ret_l {A B} (a : A) (f : A -> M B) : bind (ret a) f = f a.
Proof. unfold bind, ret. now destruct (f a). Qed.

Section Requests.

Context {H : Host}.

Lemma ThreadPool_nothing_posted (t : list Event) :
  count is_post t = 0 -> ThreadPool t = ([], Some tt).
Proof.
  unfold count. induction t as [|e t IH]; [reflexivity|].
  simpl. destruct e; simpl; try discriminate; intros E;
    now rewrite (IH E).
Qed.

Lemma ThreadPool_one_posted (t : list Event) (p : FilePath) :
  quiet t ->
  ThreadPool (t ++ [EvPost p]) = run_posted (EvPost p).
Proof.
  intros Q. induction t as [|e t IH].
  - cbn [app ThreadPool]. destruct (run_posted (EvPost p)) as [t' [[]|]];
      simpl; now rewrite ?app_nil_r.
  - unfold quiet in Q. simpl in Q. apply andb_true_iff in Q as [D Q].
    cbn [app ThreadPool]. rewrite (IH Q).
    destruct e; try discriminate D; unfold run_posted at 1;
      exact (bind_ret_l tt (fun _ => run_posted (EvPost p))).
Qed.

(** What [StartFileRequest] does when the custom frontend is a file URL:
    a reply at once when the URL has no file path, a fatal check when the
    confinement fails, and else exactly one posted read. *)
Lemma StartFileRequest_cases (path : text) :
  SchemeIsFile GetCustomDevToolsFrontendURL = true ->
  match FileURLToFilePath GetCustomDevToolsFrontendURL with
  | None =>
      StartFileRequest path
      = ([EvRun CreateNotFoundResponse;
          EvLog WARNING
            (StrCat [("Unable to find DevTools resource: " : text); path])],
         Some tt)
  | Some base_path =>
      if IsParent base_path (AppendASCII base_path path) then
        exists t, quiet t
                  /\ StartFileRequest path
                     = (t ++ [EvPost (AppendASCII base_path path)], Some tt)
      else quiet (trace (StartFileRequest path))
           /\ In (EvFatal CheckFailed) (trace (StartFileRequest path))
           /\ result (StartFileRequest path) = None
  end.
Proof.
  intros F. unfold StartFileRequest, DCHECK, DLOG, CHECK. rewrite F.
  rewrite andb_false_r.
  destruct (FileURLToFilePath GetCustomDevToolsFrontendURL) as [base_path|];
    [|reflexivity].
  destruct (IsParent base_path (AppendASCII base_path path)),
    DCHECK_IS_ON; cbn.
  - exists [EvLog INFO (StrCat [("StartFileRequest: " : text);
                                value (AppendASCII base_path path)])].
    split; reflexivity.
  - exists []. split; reflexivity.
  - repeat split; auto.
  - repeat split; auto.
Qed.

Lemma StartDataRequest_under_prefix (url : GURL) :
  let path := URLToRequestPath url in
  let prefix := StrCat [kChromeUIDevToolsBundledPath; ("/" : text)] in
  StartsWith path prefix INSENSITIVE_ASCII = true ->
  (quiet (trace (StartDataRequest url)) /\ result (StartDataRequest url) = None)
  \/ exists path_without_params t,
      let selection :=
        handled <- MaybeHandleCustomRequest
                     (skipn (length prefix) path_without_params) ;;
        if negb handled
        then StartBundledDataRequest
               (skipn (length prefix) path_without_params)
        else ret tt in
      result (PathWithoutParams path) = Some path_without_params
      /\ (DCHECK_IS_ON = true ->
          StartsWith path_without_params prefix INSENSITIVE_ASCII = true)
      /\ length prefix <= length path_without_params
      /\ quiet t
      /\ trace (StartDataRequest url) = t ++ trace selection
      /\ result (StartDataRequest url) = result selection.
Proof.
  intros path prefix S. unfold StartDataRequest. fold path prefix.
  rewrite S.
  destruct (@bind_quiet_inv _ _ _
              (fun a =>
                 DCHECK (StartsWith a prefix INSENSITIVE_ASCII) ;;;
                 path_under_bundled <- substr a (length prefix) ;;
                 handled <- MaybeHandleCustomRequest path_under_bundled ;;
                 (if negb handled
                  then StartBundledDataRequest path_under_bundled
                  else ret tt))
              (quiet_PathWithoutParams path))
    as [?|(a & Ra & -> & ->)]; [now left|].
  destruct (@bind_quiet_inv _ _ _
              (fun _ : unit =>
                 path_under_bundled <- substr a (length prefix) ;;
                 handled <- MaybeHandleCustomRequest path_under_bundled ;;
                 (if negb handled
                  then StartBundledDataRequest path_under_bundled
                  else ret tt))
              (quiet_DCHECK (StartsWith a prefix INSENSITIVE_ASCII)))
    as [[Q N]|([] & Rd & -> & ->)].
  { left. split; [|assumption].
    apply quiet_app; [apply quiet_PathWithoutParams | assumption]. }
  destruct (@bind_quiet_inv _ _ _
              (fun path_under_bundled =>
                 handled <- MaybeHandleCustomRequest path_under_bundled ;;
                 (if negb handled
                  then StartBundledDataRequest path_under_bundled
                  else ret tt))
              (quiet_substr a (length prefix)))
    as [[Q N]|(b & Rs & -> & ->)].
  { left. split; [|assumption].
    repeat apply quiet_app;
      [apply quiet_PathWithoutParams | apply quiet_DCHECK | assumption]. }
  right. unfold substr, std.substr in Rs.
  destruct (Nat.leb_spec (length prefix) (length a)) as [L|L];
    [|discriminate Rs].
  injection Rs as <-.
  exists a, (trace (PathWithoutParams path)
             ++ trace (DCHECK (StartsWith a prefix INSENSITIVE_ASCII))
             ++ trace (substr a (length prefix))).
  cbv zeta. repeat split; try assumption.
  - intros D. unfold DCHECK in Rd. rewrite D in Rd.
    now destruct (StartsWith a prefix INSENSITIVE_ASCII).
  - repeat apply quiet_app;
      [apply quiet_PathWithoutParams | apply quiet_DCHECK | apply quiet_substr].
  - now rewrite <- !app_assoc.
Qed.

Lemma MaybeHandleCustomRequest_file_inv (path : text) :
  is_valid GetCustomDevToolsFrontendURL = true ->
  SchemeIsFile GetCustomDevToolsFrontendURL = true ->
  (quiet (trace (MaybeHandleCustomRequest path))
   /\ result (MaybeHandleCustomRequest path) = None)
  \/ exists stripped relative t,
      result (StripRevisionMarkers path) = Some stripped
      /\ result (PathWithoutParams stripped) = Some relative
      /\ quiet t
      /\ trace (MaybeHandleCustomRequest path)
         = t ++ trace (StartFileRequest relative)
      /\ result (MaybeHandleCustomRequest path)
         = option_map (fun _ => true) (result (StartFileRequest relative)).
Proof.
  intros V F. unfold MaybeHandleCustomRequest. rewrite V, F. cbn [negb].
  destruct (@bind_quiet_inv _ _ _
              (fun stripped_path =>
                 file_path <- PathWithoutParams stripped_path ;;
                 StartFileRequest file_path ;;; ret true)
              (quiet_StripRevisionMarkers path))
    as [?|(s & Rs & -> & ->)]; [now left|].
  destruct (@bind_quiet_inv _ _ _
              (fun file_path => StartFileRequest file_path ;;; ret true)
              (quiet_PathWithoutParams s))
    as [[Q N]|(r & Rr & -> & ->)].
  { left. split; [|assumption].
    apply quiet_app; [apply quiet_StripRevisionMarkers | assumption]. }
  right. exists s, r,
    (trace (StripRevisionMarkers path) ++ trace (PathWithoutParams s)).
  repeat split; try assumption.
  - apply quiet_app;
      [apply quiet_StripRevisionMarkers | apply quiet_PathWithoutParams].
  - rewrite trace_bind, <- app_assoc.
    destruct (result (StartFileRequest r)); cbn; now rewrite app_nil_r.
  - rewrite result_bind. now destruct (result (StartFileRequest r)).
Qed.

End Requests.

Section Providers.

Context {H : Host}.

Lemma quiet_no_post (t : list Event) (p : FilePath) :
  quiet t -> In (EvPost p) t -> False.
Proof. intros Q. now apply quiet_has_no_effect. Qed.

Lemma no_post_not_in (t : list Event) (p : FilePath) :
  count is_post t = 0 -> ~ In (EvPost p) t.
Proof.
  unfold count. intros C I.
  assert (In (EvPost p) (filter is_post t)) as F by now apply filter_In.
  destruct (filter is_post t); [contradiction | discriminate].
Qed.

Lemma MaybeHandleCustomRequest_result (path : text) (handled : bool) :
  result (MaybeHandleCustomRequest path) = Some handled ->
  handled = is_valid GetCustomDevToolsFrontendURL.
Proof.
  destruct (is_valid GetCustomDevToolsFrontendURL) eqn:V.
  - destruct (SchemeIsFile GetCustomDevToolsFrontendURL) eqn:F.
    + destruct (MaybeHandleCustomRequest_file path V F) as (_ & _ & E).
      intros R. destruct E as [E _]; [now rewrite R|].
      rewrite E in R. now injection R as <-.
    + destruct (MaybeHandleCustomRequest_remote path V F) as (E & _).
      rewrite E. now intros [= <-].
  - rewrite (MaybeHandleCustomRequest_no_override _ V). now intros [= <-].
Qed.

(** X4.  When [MaybeHandleCustomRequest] returns, the value it returns
    tells whether a valid custom frontend is configured; when it returns
    [false] it has done nothing, so the callback is still there for the
    bundled request. *)
Theorem MaybeHandleCustomRequest_returns_validity
    (path : text) (handled : bool) :
  result (MaybeHandleCustomRequest path) = Some handled ->
  handled = is_valid GetCustomDevToolsFrontendURL
  /\ (handled = false -> MaybeHandleCustomRequest path = ([], Some false)).
Proof.
  intros R. pose proof (MaybeHandleCustomRequest_result _ R) as E.
  split; [assumption|]. intros ->.
  now apply MaybeHandleCustomRequest_no_override.
Qed.

Lemma selection_no_override (path_under_bundled : text) :
  is_valid GetCustomDevToolsFrontendURL = false ->
  selection path_under_bundled = StartBundledDataRequest path_under_bundled.
Proof.
  intros V. unfold selection.
  rewrite (MaybeHandleCustomRequest_no_override _ V).
  exact (bind_ret_l false _).
Qed.

Lemma selection_override (path_under_bundled : text) :
  is_valid GetCustomDevToolsFrontendURL = true ->
  trace (selection path_under_bundled)
  = trace (MaybeHandleCustomRequest path_under_bundled)
  /\ result (selection path_under_bundled)
     = option_map (fun _ => tt)
                  (result (MaybeHandleCustomRequest path_under_bundled)).
Proof.
  intros V. unfold selection. rewrite trace_bind, result_bind.
  destruct (result (MaybeHandleCustomRequest path_under_bundled))
    as [handled|] eqn:R; [|now rewrite app_nil_r].
  pose proof (MaybeHandleCustomRequest_result _ R) as E.
  rewrite V in E. subst handled. cbn. now rewrite app_nil_r.
Qed.

Lemma StartBundledDataRequest_inv (path : text) :
  result (StartBundledDataRequest path) <> None ->
  exists filename,
    result (PathWithoutParams path) = Some filename
    /\ effects (trace (StartBundledDataRequest path))
       = [EvLookup filename; EvRun (GetFrontendResourceBytes filename)].
Proof.
  unfold StartBundledDataRequest, PathWithoutParams, substr, DLOG.
  destruct (std.substr _ 1) as [filename|]; [|cbn; congruence].
  intros _. exists filename. split; [reflexivity|]. cbn [bind ret].
  destruct (GetFrontendResourceBytes filename), DCHECK_IS_ON; reflexivity.
Qed.

Lemma StartBundledDataRequest_lookups (path : text) :
  count is_lookup (trace (StartBundledDataRequest path)) <= 1.
Proof.
  unfold StartBundledDataRequest, PathWithoutParams, substr, DLOG.
  destruct (std.substr _ 1) as [filename|]; [|cbn; auto].
  cbn [bind ret].
  destruct (GetFrontendResourceBytes filename), DCHECK_IS_ON; cbn; auto.
Qed.

(** X5.  Without a valid custom frontend, a request under the bundled
    prefix that is not ended by a check is answered from the bundled
    resources alone: the path is resolved, cut after the prefix and
    resolved again, that name is looked up once, and the callback is run
    with what the lookup gave, the null response when the name is
    missing. *)
Theorem handle_serves_bundled (url : GURL) :
  let prefix := StrCat [kChromeUIDevToolsBundledPath; ("/" : text)] in
  is_valid GetCustomDevToolsFrontendURL = false ->
  StartsWith (URLToRequestPath url) prefix INSENSITIVE_ASCII = true ->
  result (handle url) <> None ->
  exists path_without_params filename,
    result (PathWithoutParams (URLToRequestPath url))
    = Some path_without_params
    /\ result (PathWithoutParams (skipn (length prefix) path_without_params))
       = Some filename
    /\ effects (trace (handle url))
       = [EvLookup filename; EvRun (GetFrontendResourceBytes filename)].
Proof.
  intros prefix V S N. rewrite handle_result in N.
  destruct (StartDataRequest_replies url) as (_ & _ & P & _).
  specialize (P V).
  destruct (StartDataRequest_under_prefix url S)
    as [[_ E]|(a & t & Ra & _ & _ & Q & T & R)]; [congruence|].
  fold prefix in T, R. fold (selection (skipn (length prefix) a)) in T, R.
  rewrite selection_no_override in T, R by assumption.
  rewrite R in N.
  destruct (StartBundledDataRequest_inv _ N) as (filename & Rf & E).
  exists a, filename. repeat split; try assumption.
  rewrite handle_trace, (ThreadPool_nothing_posted _ P).
  destruct (result (StartDataRequest url)); cbn [trace fst];
    rewrite app_nil_r, T, effects_app, (@effects_quiet t Q); exact E.
Qed.

(** Where a posted read comes from. *)
Lemma StartDataRequest_posts (url : GURL) (p : FilePath) :
  let prefix := StrCat [kChromeUIDevToolsBundledPath; ("/" : text)] in
  In (EvPost p) (trace (StartDataRequest url)) ->
  is_valid GetCustomDevToolsFrontendURL = true
  /\ SchemeIsFile GetCustomDevToolsFrontendURL = true
  /\ exists base_path path_without_params stripped relative t,
      FileURLToFilePath GetCustomDevToolsFrontendURL = Some base_path
      /\ result (PathWithoutParams (URLToRequestPath url))
         = Some path_without_params
      /\ result (StripRevisionMarkers
                   (skipn (length prefix) path_without_params))
         = Some stripped
      /\ result (PathWithoutParams stripped) = Some relative
      /\ p = AppendASCII base_path relative
      /\ IsParent base_path p = true
      /\ quiet t
      /\ StartDataRequest url = (t ++ [EvPost p], Some tt).
Proof.
  intros prefix I.
  destruct (StartsWith (URLToRequestPath url) prefix INSENSITIVE_ASCII)
    eqn:S.
  2: { unfold StartDataRequest in I. fold prefix in I. rewrite S in I.
       destruct I as [I|[]]. discriminate I. }
  destruct (StartDataRequest_under_prefix url S)
    as [[Q _]|(a & t & Ra & _ & _ & Q & T & R)].
  { destruct (@quiet_no_post _ _ Q I). }
  fold prefix in T, R. fold (selection (skipn (length prefix) a)) in T, R.
  rewrite T in I. apply in_app_or in I as [I|I].
  { destruct (@quiet_no_post _ _ Q I). }
  destruct (is_valid GetCustomDevToolsFrontendURL) eqn:V.
  2: { rewrite selection_no_override in I by assumption.
       destruct (StartBundledDataRequest_replies (skipn (length prefix) a))
         as (_ & P & _).
       destruct (@no_post_not_in _ p P I). }
  destruct (selection_override (skipn (length prefix) a) V) as [Ts Rs].
  rewrite Ts in I, T. rewrite Rs in R.
  destruct (SchemeIsFile GetCustomDevToolsFrontendURL) eqn:F.
  2: { destruct (MaybeHandleCustomRequest_remote
                   (skipn (length prefix) a) V F) as (_ & Qr).
       destruct (@quiet_no_post _ _ Qr I). }
  destruct (MaybeHandleCustomRequest_file_inv (skipn (length prefix) a) V F)
    as [[Qm _]|(s & r & t' & Rm & Rr & Q' & T' & R')].
  { destruct (@quiet_no_post _ _ Qm I). }
  rewrite T' in I, T. rewrite R' in R.
  apply in_app_or in I as [I|I].
  { destruct (@quiet_no_post _ _ Q' I). }
  pose proof (StartFileRequest_cases r F) as C.
  destruct (FileURLToFilePath GetCustomDevToolsFrontendURL) as [base|].
  2: { rewrite C in I. destruct I as [I|[I|[]]]; discriminate I. }
  destruct (IsParent base (AppendASCII base r)) eqn:P.
  2: { destruct C as (Qc & _). destruct (@quiet_no_post _ _ Qc I). }
  destruct C as (t'' & Q'' & C). rewrite C in I, T, R.
  apply in_app_or in I as [I|[I|[]]].
  { destruct (@quiet_no_post _ _ Q'' I). }
  injection I as <-.
  repeat split. exists base, a, s, r, (t ++ t' ++ t'').
  repeat split; try assumption.
  - repeat apply quiet_app; assumption.
  - destruct (StartDataRequest url) as [tr rr]. cbn in T, R. subst tr rr.
    now rewrite <- !app_assoc.
Qed.

(** X6.  A read is posted only while a valid custom frontend with a file
    URL is configured, and the file it names is the root that URL gives
    with one path appended: the request path resolved, cut after the
    bundled prefix, stripped of revision markers and resolved again; and
    [IsParent] holds between the root and that file. *)
Theorem posted_read_is_confined (url : GURL) (p : FilePath) :
  let prefix := StrCat [kChromeUIDevToolsBundledPath; ("/" : text)] in
  In (EvPost p) (trace (StartDataRequest url)) ->
  is_valid GetCustomDevToolsFrontendURL = true
  /\ SchemeIsFile GetCustomDevToolsFrontendURL = true
  /\ exists base_path path_without_params stripped relative,
      FileURLToFilePath GetCustomDevToolsFrontendURL = Some base_path
      /\ result (PathWithoutParams (URLToRequestPath url))
         = Some path_without_params
      /\ result (StripRevisionMarkers
                   (skipn (length prefix) path_without_params))
         = Some stripped
      /\ result (PathWithoutParams stripped) = Some relative
      /\ p = AppendASCII base_path relative
      /\ IsParent base_path p = true.
Proof.
  intros prefix I.
  destruct (StartDataRequest_posts url p I)
    as (V & F & base & a & s & r & t & B & Ra & Rs & Rr & E & P & _).
  split; [assumption|]. split; [assumption|].
  exists base, a, s, r. repeat split; assumption.
Qed.

(** X7.  When [StartDataRequest] posts a read, it returns and the post is
    its only effect: the callback is not run on the calling thread and the
    bundled resources are not consulted.  The posted task with its reply,
    when the pool runs it (it is posted [SKIP_ON_SHUTDOWN]), reads that
    file once and runs the callback once: with the contents of the file
    when the read succeeds, and when it fails with what
    [CreateNotFoundResponse] returns, a buffer of 24 bytes of a stack
    frame that has returned. *)
Theorem posted_read_completes_request (url : GURL) (p : FilePath) :
  In (EvPost p) (trace (StartDataRequest url)) ->
  result (StartDataRequest url) = Some tt
  /\ effects (trace (StartDataRequest url)) = [EvPost p]
  /\ result (run_posted (EvPost p)) = Some tt
  /\ effects (trace (run_posted (EvPost p)))
     = [EvRead p;
        EvRun (match file_read p with
               | inr contents => Some contents
               | inl _ => Some (dead_stack 24)
               end)].
Proof.
  intros I.
  destruct (StartDataRequest_posts url p I)
    as (_ & _ & _ & _ & _ & _ & t & _ & _ & _ & _ & _ & _ & Q & E).
  rewrite E. split; [reflexivity|]. split.
  - cbn [trace fst]. now rewrite effects_app, (@effects_quiet t Q).
  - unfold run_posted, ReadFileForDevTools, ReadFileToString.
    destruct (file_read p); split; reflexivity.
Qed.

(** X8.  With a file URL as custom frontend that [net::FileURLToFilePath]
    cannot turn into a path, a request under the bundled prefix that is
    not ended by a check is answered at once, on the calling thread, with
    what [CreateNotFoundResponse] returns: a buffer that is not null, of
    24 bytes of a stack frame that has returned.  A warning is logged,
    nothing is posted or read and the bundled resources are not
    consulted. *)
Theorem handle_unconvertible_root (url : GURL) :
  StartsWith (URLToRequestPath url)
             (StrCat [kChromeUIDevToolsBundledPath; ("/" : text)])
             INSENSITIVE_ASCII = true ->
  is_valid GetCustomDevToolsFrontendURL = true ->
  SchemeIsFile GetCustomDevToolsFrontendURL = true ->
  FileURLToFilePath GetCustomDevToolsFrontendURL = None ->
  result (handle url) <> None ->
  effects (trace (handle url)) = [EvRun (Some (dead_stack 24))]
  /\ exists relative,
      In (EvLog WARNING
            (StrCat [("Unable to find DevTools resource: " : text); relative]))
         (trace (handle url)).
Proof.
  intros S V F B N. rewrite handle_result in N.
  destruct (StartDataRequest_under_prefix url S)
    as [[_ E]|(a & t & Ra & _ & _ & Q & T & R)]; [congruence|].
  set (prefix := StrCat [kChromeUIDevToolsBundledPath; ("/" : text)]) in *.
  fold (selection (skipn (length prefix) a)) in T, R.
  destruct (selection_override (skipn (length prefix) a) V) as [Ts Rs].
  rewrite Ts in T. rewrite Rs in R.
  destruct (MaybeHandleCustomRequest_file_inv (skipn (length prefix) a) V F)
    as [[_ E]|(s & r & t' & Rm & Rr & Q' & T' & R')].
  { rewrite R, E in N. now contradiction N. }
  pose proof (StartFileRequest_cases r F) as C. rewrite B in C.
  rewrite T', C in T. cbn [trace fst] in T.
  assert (count is_post (trace (StartDataRequest url)) = 0) as P.
  { rewrite T, !count_app.
    destruct (quiet_counts Q) as (_ & -> & _).
    destruct (quiet_counts Q') as (_ & -> & _). reflexivity. }
  rewrite handle_trace, (ThreadPool_nothing_posted _ P).
  assert (trace (StartDataRequest url)
            ++ match result (StartDataRequest url) with
               | Some _ => @trace unit ([], Some tt)
               | None => []
               end
          = trace (StartDataRequest url)) as ->
      by (destruct (result (StartDataRequest url)); apply app_nil_r).
  rewrite T. split.
  - rewrite !effects_app, (@effects_quiet t Q), (@effects_quiet t' Q').
    reflexivity.
  - exists r. apply in_or_app. right. apply in_or_app. right.
    simpl. auto.
Qed.

(** X9.  For one request at most one provider is consulted: either the
    bundled resources are looked up once, and then no valid custom
    frontend is configured, or one read is posted, and then the custom
    frontend is a valid file URL; never both. *)
Theorem providers_exclusive (url : GURL) :
  count is_lookup (trace (handle url)) + count is_post (trace (handle url))
  <= 1
  /\ (0 < count is_lookup (trace (handle url)) ->
      is_valid GetCustomDevToolsFrontendURL = false)
  /\ (0 < count is_post (trace (handle url)) ->
      is_valid GetCustomDevToolsFrontendURL = true
      /\ SchemeIsFile GetCustomDevToolsFrontendURL = true).
Proof.
  assert (count is_lookup (trace (handle url))
          = count is_lookup (trace (StartDataRequest url))
          /\ count is_post (trace (handle url))
             = count is_post (trace (StartDataRequest url))) as [-> ->].
  { rewrite handle_trace, !count_app.
    destruct (ThreadPool_spec (trace (StartDataRequest url)))
      as (_ & _ & P & L).
    destruct (result (StartDataRequest url)); [rewrite P, L|]; cbn; lia. }
  destruct (StartDataRequest_replies url) as (Le & _ & Pn & Qr).
  assert (count is_post (trace (StartDataRequest url)) <= 1) as Lp
      by (unfold replies in Le; lia).
  destruct (StartsWith (URLToRequestPath url)
              (StrCat [kChromeUIDevToolsBundledPath; ("/" : text)])
              INSENSITIVE_ASCII) eqn:S.
  2: { unfold StartDataRequest. rewrite S. cbn. repeat split; lia. }
  destruct (StartDataRequest_under_prefix url S)
    as [[Q _]|(a & t & _ & _ & _ & Q & T & _)].
  { destruct (quiet_counts Q) as (_ & -> & -> & _). repeat split; lia. }
  set (prefix := StrCat [kChromeUIDevToolsBundledPath; ("/" : text)]) in *.
  fold (selection (skipn (length prefix) a)) in T.
  destruct (quiet_counts Q) as (_ & Qp & Ql & _).
  destruct (is_valid GetCustomDevToolsFrontendURL) eqn:V.
  - destruct (selection_override (skipn (length prefix) a) V) as [Ts _].
    rewrite Ts in T.
    assert (count is_lookup (trace (StartDataRequest url)) = 0) as L0.
    { rewrite T, count_app, Ql.
      destruct (SchemeIsFile GetCustomDevToolsFrontendURL) eqn:F.
      - now destruct (MaybeHandleCustomRequest_file
                        (skipn (length prefix) a) V F) as (_ & -> & _).
      - destruct (MaybeHandleCustomRequest_remote
                    (skipn (length prefix) a) V F) as (_ & Qm).
        now destruct (quiet_counts Qm) as (_ & _ & -> & _). }
    rewrite L0. repeat split; try lia.
    destruct (SchemeIsFile GetCustomDevToolsFrontendURL) eqn:F;
      [reflexivity|].
    specialize (Qr eq_refl eq_refl eq_refl).
    destruct (quiet_counts Qr) as (_ & P0 & _). lia.
  - rewrite (Pn eq_refl).
    rewrite selection_no_override in T by assumption.
    rewrite T, count_app, Ql.
    pose proof (StartBundledDataRequest_lookups (skipn (length prefix) a)).
    repeat split; lia.
Qed.

End Providers.

(** ** Builds with and without DCHECKs *)

Lemma agree_refl {A} (m : M A) : agree m m.
Proof. intros _. split; reflexivity. Qed.

Lemma agree_bind {A B} (m m' : M A) (f f' : A -> M B) :
  agree m m' -> (forall a, agree (f a) (f' a)) ->
  agree (bind m f) (bind m' f').
Proof.
  intros Am Af. unfold agree. rewrite !result_bind, !trace_bind, !effects_app.
  destruct (result m) as [a|] eqn:R; [|congruence].
  intros N. destruct Am as [Rm Em]; [congruence|].
  rewrite Rm, R, Em. destruct (Af a N) as [Rf Ef]. now rewrite Rf, Ef.
Qed.

Lemma ThreadPool_effects {H : Host} (t : list Event) :
  ThreadPool t = ThreadPool (effects t).
Proof.
  induction t as [|e t IH]; [reflexivity|].
  unfold effects. cbn [filter]. fold (effects t).
  destruct (diagnostic e) eqn:D; cbn [negb ThreadPool]; rewrite IH.
  - destruct e; try discriminate D; unfold run_posted at 1;
      exact (bind_ret_l tt (fun _ => ThreadPool (effects t))).
  - reflexivity.
Qed.

Section Builds.

Variable H : Host.

Lemma agree_DLOG (sev : Severity) (msg : text) :
  agree (DLOG (H := with_dchecks true H) sev msg) (DLOG (H := with_dchecks false H) sev msg).
Proof. intros _. split; reflexivity. Qed.

Lemma agree_DCHECK (cond : bool) :
  agree (DCHECK (H := with_dchecks true H) cond) (DCHECK (H := with_dchecks false H) cond).
Proof.
  unfold DCHECK, agree. cbn. destruct cond; cbn; [auto | congruence].
Qed.

Lemma agree_Strip (path prefix : text) :
  agree (StripDevToolsRevisionWithPrefix (H := with_dchecks true H) path prefix)
        (StripDevToolsRevisionWithPrefix (H := with_dchecks false H) path prefix).
Proof.
  unfold StripDevToolsRevisionWithPrefix.
  destruct (StartsWith path prefix INSENSITIVE_ASCII); [|apply agree_refl].
  destruct (std.find _ _ _); [apply agree_refl|].
  apply agree_bind; [apply agree_DLOG | intros _; apply agree_refl].
Qed.

Lemma agree_StripRevisionMarkers (path : text) :
  agree (StripRevisionMarkers (H := with_dchecks true H) path)
        (StripRevisionMarkers (H := with_dchecks false H) path).
Proof.
  unfold StripRevisionMarkers.
  repeat (apply agree_bind; [apply agree_Strip | intros ?]).
  apply agree_Strip.
Qed.

Lemma agree_StartBundledDataRequest (path : text) :
  agree (StartBundledDataRequest (H := with_dchecks true H) path)
        (StartBundledDataRequest (H := with_dchecks false H) path).
Proof.
  unfold StartBundledDataRequest.
  apply agree_bind; [apply agree_refl | intros filename].
  apply agree_bind; [apply agree_refl | intros _].
  apply agree_bind; [|intros _; apply agree_refl].
  change (@GetFrontendResourceBytes (with_dchecks true H) filename)
    with (@GetFrontendResourceBytes (with_dchecks false H) filename).
  destruct (@GetFrontendResourceBytes (with_dchecks false H) filename);
    [apply agree_refl | apply agree_DLOG].
Qed.

Lemma agree_StartFileRequest (path : text) :
  agree (StartFileRequest (H := with_dchecks true H) path)
        (StartFileRequest (H := with_dchecks false H) path).
Proof.
  unfold StartFileRequest.
  apply agree_bind; [apply agree_DCHECK | intros _].
  change (@FileURLToFilePath (with_dchecks true H) (@GetCustomDevToolsFrontendURL (with_dchecks true H)))
    with (@FileURLToFilePath (with_dchecks false H) (@GetCustomDevToolsFrontendURL (with_dchecks false H))).
  destruct (@FileURLToFilePath (with_dchecks false H) (@GetCustomDevToolsFrontendURL (with_dchecks false H)));
    [|apply agree_refl].
  apply agree_bind; [apply agree_DLOG | intros _; apply agree_refl].
Qed.

Lemma agree_MaybeHandleCustomRequest (path : text) :
  agree (MaybeHandleCustomRequest (H := with_dchecks true H) path)
        (MaybeHandleCustomRequest (H := with_dchecks false H) path).
Proof.
  unfold MaybeHandleCustomRequest.
  change (@is_valid (with_dchecks true H) (@GetCustomDevToolsFrontendURL (with_dchecks true H)))
    with (@is_valid (with_dchecks false H) (@GetCustomDevToolsFrontendURL (with_dchecks false H))).
  change (@SchemeIsFile (with_dchecks true H) (@GetCustomDevToolsFrontendURL (with_dchecks true H)))
    with (@SchemeIsFile (with_dchecks false H) (@GetCustomDevToolsFrontendURL (with_dchecks false H))).
  destruct (negb _); [apply agree_refl|].
  apply agree_bind; [apply agree_StripRevisionMarkers | intros stripped].
  destruct (@SchemeIsFile (with_dchecks false H) _); [|apply agree_refl].
  apply agree_bind; [apply agree_refl | intros file_path].
  apply agree_bind; [apply agree_StartFileRequest | intros _].
  apply agree_refl.
Qed.

Lemma agree_StartDataRequest (url : @GURL H) :
  agree (StartDataRequest (H := with_dchecks true H) url)
        (StartDataRequest (H := with_dchecks false H) url).
Proof.
  unfold StartDataRequest.
  change (@URLToRequestPath (with_dchecks true H) url) with (@URLToRequestPath (with_dchecks false H) url).
  change (@kChromeUIDevToolsBundledPath (with_dchecks true H))
    with (@kChromeUIDevToolsBundledPath (with_dchecks false H)).
  destruct (StartsWith _ _ _); [|apply agree_refl].
  apply agree_bind; [apply agree_refl | intros path_without_params].
  apply agree_bind; [apply agree_DCHECK | intros _].
  apply agree_bind; [apply agree_refl | intros path_under_bundled].
  apply agree_bind; [apply agree_MaybeHandleCustomRequest | intros handled].
  destruct (negb handled);
    [apply agree_StartBundledDataRequest | apply agree_refl].
Qed.

(** X10.  A release build does what a debug build does, diagnostics
    apart: whenever the debug build handles a request without a failed
    check, the build without DCHECKs handles it too and has the same
    effects in the same order. *)
Theorem release_agrees_with_debug (url : @GURL H) :
  result (handle (H := with_dchecks true H) url) <> None ->
  result (handle (H := with_dchecks false H) url)
  = result (handle (H := with_dchecks true H) url)
  /\ effects (trace (handle (H := with_dchecks false H) url))
     = effects (trace (handle (H := with_dchecks true H) url)).
Proof.
  rewrite !handle_result. intros N.
  destruct (agree_StartDataRequest url N) as [R E].
  split; [assumption|].
  rewrite !handle_trace, !effects_app, R, E. f_equal.
  destruct (result (StartDataRequest (H := with_dchecks true H) url)); [|reflexivity].
  rewrite (ThreadPool_effects (H := with_dchecks false H)),
    (ThreadPool_effects (H := with_dchecks true H)), E.
  reflexivity.
Qed.

End Builds.

(** ** Where a failed CHECK comes from *)

Lemma in_bind {A B} (e : Event) (m : M A) (f : A -> M B) :
  In e (trace (bind m f)) ->
  In e (trace m) \/ exists a, result m = Some a /\ In e (trace (f a)).
Proof.
  rewrite trace_bind. intros I. apply in_app_or in I as [I|I]; [now left|].
  destruct (result m) as [a|]; [right; eauto | destruct I].
Qed.

Section Checks.

Context {H : Host}.

Lemma substr_no_check (s : text) (pos : nat) :
  ~ In (EvFatal CheckFailed) (trace (substr s pos)).
Proof.
  unfold substr. destruct (std.substr s pos); simpl; [tauto|].
  intros [E|[]]. discriminate E.
Qed.

Lemma DCHECK_no_check (cond : bool) : ~ In (EvFatal CheckFailed) (trace (DCHECK cond)).
Proof.
  unfold DCHECK. destruct (DCHECK_IS_ON && negb cond); simpl; [|tauto].
  intros [E|[]]. discriminate E.
Qed.

Lemma Strip_no_check (path prefix : text) :
  ~ In (EvFatal CheckFailed) (trace (StripDevToolsRevisionWithPrefix path prefix)).
Proof.
  unfold StripDevToolsRevisionWithPrefix, DLOG.
  destruct (StartsWith _ _ _); [|simpl; tauto].
  destruct (std.find _ _ _); [apply substr_no_check|].
  destruct DCHECK_IS_ON; simpl; [|tauto]. intros [E|[]]. discriminate E.
Qed.

Lemma StripRevisionMarkers_no_check (path : text) :
  ~ In (EvFatal CheckFailed) (trace (StripRevisionMarkers path)).
Proof.
  unfold StripRevisionMarkers. intros I.
  apply in_bind in I as [I|(a & _ & I)]; [now apply Strip_no_check in I|].
  apply in_bind in I as [I|(b & _ & I)]; now apply Strip_no_check in I.
Qed.

Lemma StartBundledDataRequest_no_check (path : text) :
  ~ In (EvFatal CheckFailed) (trace (StartBundledDataRequest path)).
Proof.
  unfold StartBundledDataRequest, PathWithoutParams, DLOG. intros I.
  apply in_bind in I as [I|(filename & _ & I)];
    [now apply substr_no_check in I|].
  destruct (GetFrontendResourceBytes filename), DCHECK_IS_ON; cbn in I;
    repeat destruct I as [I|I]; try discriminate I; assumption.
Qed.

Lemma StartFileRequest_check (path : text) :
  In (EvFatal CheckFailed) (trace (StartFileRequest path)) ->
  exists base_path,
    FileURLToFilePath GetCustomDevToolsFrontendURL = Some base_path
    /\ IsParent base_path (AppendASCII base_path path) = false.
Proof.
  unfold StartFileRequest, DCHECK, DLOG, CHECK.
  destruct (FileURLToFilePath GetCustomDevToolsFrontendURL) as [base_path|].
  - destruct (IsParent base_path (AppendASCII base_path path)) eqn:P;
      [|eauto].
    destruct (DCHECK_IS_ON && _), DCHECK_IS_ON; cbn; intros I;
      repeat destruct I as [I|I]; try discriminate I; contradiction.
  - destruct (DCHECK_IS_ON && _); cbn; intros I;
      repeat destruct I as [I|I]; try discriminate I; contradiction.
Qed.

Lemma ThreadPool_no_check (t : list Event) :
  ~ In (EvFatal CheckFailed) (trace (ThreadPool t)).
Proof.
  induction t as [|e t IH]; [simpl; tauto|].
  cbn [ThreadPool]. intros I.
  apply in_bind in I as [I|(_ & _ & I)]; [|contradiction].
  destruct e; cbn in I; try contradiction.
  unfold ReadFileForDevTools in I.
  destruct (ReadFileToString full_path); cbn in I;
    repeat destruct I as [I|I]; try discriminate I; assumption.
Qed.

Lemma substr_result (s r : text) (pos : nat) :
  result (substr s pos) = Some r -> r = skipn pos s.
Proof.
  unfold substr, std.substr. destruct (pos <=? length s); cbn;
    [now intros [= <-] | discriminate].
Qed.

(** X11.  The only [CHECK] a request can fail is the confinement check:
    when handling ends in a failed [CHECK], the request is under the
    bundled prefix, a valid custom frontend with a file URL is configured,
    and [IsParent] does not hold between the root that URL gives and the
    root with the requested path appended, that path being the request
    path resolved, cut after the bundled prefix, stripped of revision
    markers and resolved again. *)
Theorem failed_check_is_confinement (url : GURL) :
  In (EvFatal CheckFailed) (trace (handle url)) ->
  StartsWith (URLToRequestPath url)
             (StrCat [kChromeUIDevToolsBundledPath; ("/" : text)])
             INSENSITIVE_ASCII = true
  /\ is_valid GetCustomDevToolsFrontendURL = true
  /\ SchemeIsFile GetCustomDevToolsFrontendURL = true
  /\ exists base_path path_without_params stripped relative,
      FileURLToFilePath GetCustomDevToolsFrontendURL = Some base_path
      /\ result (PathWithoutParams (URLToRequestPath url))
         = Some path_without_params
      /\ result (StripRevisionMarkers
                   (skipn (length (StrCat [kChromeUIDevToolsBundledPath;
                                           ("/" : text)]))
                          path_without_params))
         = Some stripped
      /\ result (PathWithoutParams stripped) = Some relative
      /\ IsParent base_path (AppendASCII base_path relative) = false.
Proof.
  rewrite handle_trace. intros I. apply in_app_or in I as [I|I].
  2: { destruct (result (StartDataRequest url)); [|destruct I].
       now apply ThreadPool_no_check in I. }
  unfold StartDataRequest in I.
  destruct (StartsWith _ _ _).
  2: { destruct I as [I|[]]. discriminate I. }
  apply in_bind in I as [I|(a & Ra & I)]; [now apply substr_no_check in I|].
  apply in_bind in I as [I|(_ & _ & I)]; [now apply DCHECK_no_check in I|].
  apply in_bind in I as [I|(b & Rb & I)]; [now apply substr_no_check in I|].
  apply substr_result in Rb. subst b.
  apply in_bind in I as [I|(handled & _ & I)].
  - unfold MaybeHandleCustomRequest in I.
    destruct (is_valid GetCustomDevToolsFrontendURL); [|destruct I].
    cbn [negb] in I.
    apply in_bind in I as [I|(s & Rs & I)];
      [now apply StripRevisionMarkers_no_check in I|].
    destruct (SchemeIsFile GetCustomDevToolsFrontendURL); [|destruct I].
    apply in_bind in I as [I|(r & Rr & I)]; [now apply substr_no_check in I|].
    apply in_bind in I as [I|(_ & _ & I)]; [|destruct I].
    apply StartFileRequest_check in I as (base & B & P).
    repeat split. exists base, a, s, r. repeat split; assumption.
  - destruct handled; cbn [negb] in I; [destruct I|].
    now apply StartBundledDataRequest_no_check in I.
Qed.

End Checks.

(** ** Null responses *)

Section Answers.

Context {H : Host}.

Lemma ThreadPool_never_null (t : list Event) :
  ~ In (EvRun None) (trace (ThreadPool t)).
Proof.
  induction t as [|e t IH]; [simpl; tauto|].
  cbn [ThreadPool]. intros I.
  apply in_bind in I as [I|(_ & _ & I)]; [|contradiction].
  destruct e; cbn in I; try contradiction.
  unfold ReadFileForDevTools in I.
  destruct (ReadFileToString full_path); cbn in I;
    repeat destruct I as [I|I]; try discriminate I; assumption.
Qed.

Lemma StartFileRequest_never_null (path : text) :
  ~ In (EvRun None) (trace (StartFileRequest path)).
Proof.
  unfold StartFileRequest, DCHECK, DLOG, CHECK.
  destruct (DCHECK_IS_ON && _), DCHECK_IS_ON,
    (FileURLToFilePath GetCustomDevToolsFrontendURL) as [base_path|];
    try destruct (IsParent base_path (AppendASCII base_path path));
    cbn; intros I; repeat destruct I as [I|I]; try discriminate I;
    assumption.
Qed.

Lemma StartBundledDataRequest_null (path : text) :
  In (EvRun None) (trace (StartBundledDataRequest path)) ->
  exists filename,
    In (EvLookup filename) (trace (StartBundledDataRequest path))
    /\ GetFrontendResourceBytes filename = None.
Proof.
  unfold StartBundledDataRequest, PathWithoutParams, substr, DLOG.
  destruct (std.substr _ 1) as [filename|].
  - cbn [bind ret]. intros I. exists filename.
    destruct (GetFrontendResourceBytes filename) eqn:B, DCHECK_IS_ON;
      cbn in I |- *; repeat destruct I as [I|I]; try discriminate I;
      try contradiction; auto.
  - cbn. intros [I|[]]. discriminate I.
Qed.

(** X12.  The callback is run with the null response only for a request
    outside the bundled prefix, or, with no valid custom frontend
    configured, for a name that was looked up and is missing from the
    bundled resources.  A file request never answers with the null
    response, not even when its read fails. *)
Theorem null_response_origin (url : GURL) :
  In (EvRun None) (trace (handle url)) ->
  StartsWith (URLToRequestPath url)
             (StrCat [kChromeUIDevToolsBundledPath; ("/" : text)])
             INSENSITIVE_ASCII = false
  \/ (is_valid GetCustomDevToolsFrontendURL = false
      /\ exists filename,
          In (EvLookup filename) (trace (handle url))
          /\ GetFrontendResourceBytes filename = None).
Proof.
  rewrite handle_trace. intros I. apply in_app_or in I as [I|I].
  2: { destruct (result (StartDataRequest url)); [|destruct I].
       now apply ThreadPool_never_null in I. }
  destruct (StartsWith (URLToRequestPath url) _ _) eqn:S; [right|now left].
  destruct (StartDataRequest_under_prefix url S)
    as [[Q _]|(a & t & _ & _ & _ & Q & T & _)].
  { now apply (@quiet_has_no_effect _ _ Q) in I. }
  set (prefix := StrCat [kChromeUIDevToolsBundledPath; ("/" : text)]) in *.
  fold (selection (skipn (length prefix) a)) in T.
  rewrite T in I |- *. apply in_app_or in I as [I|I].
  { now apply (@quiet_has_no_effect _ _ Q) in I. }
  destruct (is_valid GetCustomDevToolsFrontendURL) eqn:V.
  - exfalso.
    destruct (selection_override (skipn (length prefix) a) V) as [Ts _].
    rewrite Ts in I. unfold MaybeHandleCustomRequest in I.
    rewrite V in I. cbn [negb] in I.
    apply in_bind in I as [I|(s & _ & I)].
    { now apply (@quiet_has_no_effect _ _ (quiet_StripRevisionMarkers _))
        in I. }
    destruct (SchemeIsFile GetCustomDevToolsFrontendURL); [|destruct I].
    apply in_bind in I as [I|(r & _ & I)].
    { now apply (@quiet_has_no_effect _ _ (quiet_PathWithoutParams _)) in I. }
    apply in_bind in I as [I|(_ & _ & I)]; [|destruct I].
    now apply StartFileRequest_never_null in I.
  - split; [reflexivity|].
    rewrite selection_no_override in I |- * by assumption.
    destruct (StartBundledDataRequest_null _ I) as (filename & L & B).
    exists filename. split; [|assumption].
    apply in_or_app. left. apply in_or_app. now right.
Qed.

End Answers.

(** * The further properties at concrete requests *)

Lemma StripRevisionMarkers_removes_a_prefix_witness :
  DCHECK_IS_ON (Host := local_host false) = false
  /\ exists front stripped,
      result (StripRevisionMarkers (H := local_host false)
                "serve_rev/@1/panels/a.js")
      = Some stripped
      /\ text_of_string "serve_rev/@1/panels/a.js" = front ++ stripped
      /\ (DCHECK_IS_ON (Host := local_host false) = false ->
          StripRevisionMarkers (H := local_host false)
            "serve_rev/@1/panels/a.js"
          = ([], Some stripped)).
Proof.
  split; [reflexivity|].
  exact (StripRevisionMarkers_removes_a_prefix (H := local_host false)
           "serve_rev/@1/panels/a.js").
Defined.

Lemma StripRevisionMarkers_nested_witness :
  StripRevisionMarkers (H := local_host true)
    "Serve_Rev/@1/serve_file/@2/SERVE_INTERNAL_FILE/@3/panels/a.js"
  = ([], Some (text_of_string "panels/a.js")).
Proof.
  apply (StripRevisionMarkers_nested (H := local_host true)
           (text_of_string "Serve_Rev/") (text_of_string "serve_file/")
           (text_of_string "SERVE_INTERNAL_FILE/")
           (text_of_string "1") (text_of_string "2") (text_of_string "3")
           (text_of_string "panels/a.js") "@"%char "@"%char "@"%char);
    try (vm_compute; reflexivity);
    simpl; intros [D|[]]; discriminate D.
Defined.

Lemma MaybeHandleCustomRequest_returns_validity_witness :
  result (MaybeHandleCustomRequest (H := remote_host) "inspector.js")
  = Some true
  /\ true = is_valid (Host := remote_host)
              (GetCustomDevToolsFrontendURL (H := remote_host)).
Proof.
  assert (result (MaybeHandleCustomRequest (H := remote_host) "inspector.js")
          = Some true) as R by (vm_compute; reflexivity).
  split; [exact R|].
  exact (proj1 (MaybeHandleCustomRequest_returns_validity
                  (H := remote_host) "inspector.js" R)).
Defined.

Lemma handle_serves_bundled_witness :
  is_valid (Host := plain_host)
    (GetCustomDevToolsFrontendURL (H := plain_host)) = false
  /\ result (handle (H := plain_host)
               (request "bundled/inspector.js?ws=localhost")) <> None
  /\ exists path_without_params filename,
      result (PathWithoutParams (H := plain_host)
                (URLToRequestPath (Host := plain_host)
                   (request "bundled/inspector.js?ws=localhost")))
      = Some path_without_params
      /\ result (PathWithoutParams (H := plain_host)
                   (skipn 8 path_without_params))
         = Some filename
      /\ effects (trace (handle (H := plain_host)
                           (request "bundled/inspector.js?ws=localhost")))
         = [EvLookup filename;
            EvRun (GetFrontendResourceBytes (Host := plain_host) filename)].
Proof.
  assert (is_valid (Host := plain_host)
            (GetCustomDevToolsFrontendURL (H := plain_host)) = false) as V
      by (vm_compute; reflexivity).
  assert (result (handle (H := plain_host)
                    (request "bundled/inspector.js?ws=localhost")) <> None)
    as N by (vm_compute; discriminate).
  split; [exact V|]. split; [exact N|].
  refine (handle_serves_bundled (H := plain_host)
            (request "bundled/inspector.js?ws=localhost") V _ N).
  vm_compute. reflexivity.
Defined.

Lemma posted_read_is_confined_witness :
  In (EvPost {| value := "/opt/frontend/inspector.html" |})
     (trace (StartDataRequest (H := local_host false)
               (request "bundled/serve_file/@123/inspector.html?x=1")))
  /\ SchemeIsFile (Host := local_host false)
       (GetCustomDevToolsFrontendURL (H := local_host false)) = true.
Proof.
  assert (In (EvPost {| value := "/opt/frontend/inspector.html" |})
             (trace (StartDataRequest (H := local_host false)
                       (request "bundled/serve_file/@123/inspector.html?x=1"))))
    as I by (vm_compute; left; reflexivity).
  split; [exact I|].
  exact (proj1 (proj2 (posted_read_is_confined (H := local_host false) _ _ I))).
Defined.

Lemma posted_read_completes_request_witness :
  In (EvPost {| value := "/opt/frontend/locked.js" |})
     (trace (StartDataRequest (H := local_host false)
               (request "bundled/locked.js")))
  /\ file_read (Host := local_host false)
       {| value := "/opt/frontend/locked.js" |} = inl PermissionDenied
  /\ effects (trace (run_posted (H := local_host false)
                       (EvPost {| value := "/opt/frontend/locked.js" |})))
     = [EvRead {| value := "/opt/frontend/locked.js" |};
        EvRun (Some (repeat "000"%char 24))].
Proof.
  assert (In (EvPost {| value := "/opt/frontend/locked.js" |})
             (trace (StartDataRequest (H := local_host false)
                       (request "bundled/locked.js"))))
    as I by (vm_compute; left; reflexivity).
  split; [exact I|]. split; [reflexivity|].
  exact (proj2 (proj2 (proj2 (posted_read_completes_request
                                (H := local_host false) _ _ I)))).
Defined.

Lemma handle_unconvertible_root_witness :
  FileURLToFilePath (Host := without_file_paths (local_host false))
    (GetCustomDevToolsFrontendURL (H := without_file_paths (local_host false)))
  = None
  /\ effects (trace (handle (H := without_file_paths (local_host false))
                       (request "bundled/inspector.html")))
     = [EvRun (Some (repeat "000"%char 24))].
Proof.
  split; [reflexivity|].
  refine (proj1 (handle_unconvertible_root
                   (H := without_file_paths (local_host false))
                   (request "bundled/inspector.html") _ _ _ _ _));
    vm_compute; (reflexivity || discriminate).
Defined.

Lemma providers_exclusive_witness :
  0 < count is_post (trace (handle (H := local_host false)
                              (request "bundled/inspector.html")))
  /\ is_valid (Host := local_host false)
       (GetCustomDevToolsFrontendURL (H := local_host false)) = true
  /\ SchemeIsFile (Host := local_host false)
       (GetCustomDevToolsFrontendURL (H := local_host false)) = true.
Proof.
  assert (0 < count is_post (trace (handle (H := local_host false)
                                      (request "bundled/inspector.html"))))
    as P by (vm_compute; lia).
  split; [exact P|].
  exact (proj2 (proj2 (providers_exclusive (H := local_host false)
                         (request "bundled/inspector.html"))) P).
Defined.

Lemma release_agrees_with_debug_witness :
  result (handle (H := with_dchecks true (local_host false))
                 (request "bundled/serve_rev/inspector.html")) <> None
  /\ effects (trace (handle (H := with_dchecks false (local_host false))
                       (request "bundled/serve_rev/inspector.html")))
     = effects (trace (handle (H := with_dchecks true (local_host false))
                         (request "bundled/serve_rev/inspector.html"))).
Proof.
  assert (result (handle (H := with_dchecks true (local_host false))
                    (request "bundled/serve_rev/inspector.html")) <> None)
    as N by (vm_compute; discriminate).
  split; [exact N|].
  exact (proj2 (release_agrees_with_debug (local_host false)
                  (request "bundled/serve_rev/inspector.html") N)).
Defined.

Lemma failed_check_is_confinement_witness :
  In (EvFatal CheckFailed)
     (trace (handle (H := local_host true) (request "bundled/")))
  /\ exists base_path path_without_params stripped relative,
      FileURLToFilePath (Host := local_host true)
        (GetCustomDevToolsFrontendURL (H := local_host true))
      = Some base_path
      /\ result (PathWithoutParams (H := local_host true)
                   (URLToRequestPath (Host := local_host true)
                                     (request "bundled/")))
         = Some path_without_params
      /\ result (StripRevisionMarkers (H := local_host true)
                   (skipn 8 path_without_params))
         = Some stripped
      /\ result (PathWithoutParams (H := local_host true) stripped)
         = Some relative
      /\ IsParent (Host := local_host true) base_path
           (AppendASCII (Host := local_host true) base_path relative)
         = false.
Proof.
  assert (In (EvFatal CheckFailed)
             (trace (handle (H := local_host true) (request "bundled/"))))
    as I by (vm_compute; right; left; reflexivity).
  split; [exact I|].
  exact (proj2 (proj2 (proj2 (failed_check_is_confinement
                                (H := local_host true) _ I)))).
Defined.

Lemma null_response_origin_witness :
  In (EvRun None)
     (trace (handle (H := plain_host) (request "bundled/missing.js")))
  /\ (StartsWith (URLToRequestPath (Host := plain_host)
                                   (request "bundled/missing.js"))
                 "bundled/" INSENSITIVE_ASCII = false
      \/ (is_valid (Host := plain_host)
            (GetCustomDevToolsFrontendURL (H := plain_host)) = false
          /\ exists filename,
              In (EvLookup filename)
                 (trace (handle (H := plain_host)
                           (request "bundled/missing.js")))
              /\ GetFrontendResourceBytes (Host := plain_host) filename
                 = None)).
Proof.
  assert (In (EvRun None)
             (trace (handle (H := plain_host) (request "bundled/missing.js"))))
    as I by (vm_compute; right; left; reflexivity).
  split; [exact I|].
  exact (null_response_origin (H := plain_host) _ I).
Defined.
